(** * Pepper: the credential store and the Graph request executor

    A shallow embedding of [app/token_storage.py] and [app/graph_client.py].
    Python objects become Rocq values, methods become functions in a small
    state-and-exception monad over the part of the world they touch, and the
    libraries the code calls (Fernet, json, datetime, str codecs) are
    interfaces with a reference instance used to run the model. *)

From stdpp Require Import base strings gmap list pretty.
From Equations Require Import Equations.

Set Warnings "-register-all".
#[local] Open Scope Z_scope.

(** ** Python values, exceptions and the execution monad *)

Module Py.

(** The values that travel through [json.dumps]/[json.loads] and through
    request and response bodies.  Numbers are Python [int]s. *)
Inductive json : Type :=
| JNull
| JBool (b : bool)
| JInt (z : Z)
| JStr (s : string)
| JList (l : list json)
| JDict (d : gmap string json).

(** [bytes] objects. *)
Abbreviation bytes := (list Byte.byte).

(** Python's truth test ([if x:], [not x]). *)
Definition truthy (v : json) : bool :=
  match v with
  | JNull => false
  | JBool b => b
  | JInt z => negb (z =? 0)
  | JStr s => negb (String.eqb s "")
  | JList l => match l with [] => false | _ => true end
  | JDict d => negb (bool_decide (d = ∅))
  end.

(** Truth test of a [bytes] value that may be [None]. *)
Definition truthy_bytes (o : option bytes) : bool :=
  match o with
  | Some (_ :: _) => true
  | _ => false
  end.

(** Exception classes raised inside builtins and library calls; their
    message text is the library's and is not modelled. *)
Inductive builtin_error : Type :=
| PyValueError
| PyTypeError
| PyAttributeError
| PyOverflowError
| PyUnicodeDecodeError
| PyJSONDecodeError
| InvalidToken.

(** The [httpx] exceptions a request can end in: [TimeoutException],
    [NetworkError], and the other transport errors. *)
Inductive transport_error : Type :=
| TimeoutException
| NetworkError
| OtherTransportError.

(** Exceptions.  The first four are the ones the repository raises itself,
    with the message it builds ([TokenExpiredError] and [RateLimitError]
    are subclasses of [GraphAPIError]); [Builtin PyValueError] is the
    [ValueError] of a failed conversion; a transport error carries its
    [str(e)]. *)
Inductive exn : Type :=
| GraphAPIError (msg : string)
| TokenExpiredError (msg : string)
| RateLimitError (msg : string)
| ValueError (msg : string)
| Builtin (cls : builtin_error)
| Transport (cls : transport_error) (msg : string).

(** [isinstance(e, GraphAPIError)], the test behind the route layer's
    [except GraphAPIError] clauses. *)
Definition is_GraphAPIError (e : exn) : bool :=
  match e with
  | GraphAPIError _ | TokenExpiredError _ | RateLimitError _ => true
  | _ => false
  end.

Inductive outcome (A : Type) : Type :=
| Return (a : A)
| Raise (e : exn).
Arguments Return {A} a.
Arguments Raise {A} e.

(** A computation over a mutable world [W]: it ends by returning or by
    raising, and either way leaves a world behind (Python does not roll
    back mutations when an exception propagates). *)
Definition M (W A : Type) : Type := W → outcome A * W.

Definition ret {W A} (a : A) : M W A := λ w, (Return a, w).

Definition raise {W A} (e : exn) : M W A := λ w, (Raise e, w).

Definition bind {W A B} (c : M W A) (k : A → M W B) : M W B :=
  λ w, match c w with
       | (Return a, w') => k a w'
       | (Raise e, w') => (Raise e, w')
       end.

Definition gets {W A} (f : W → A) : M W A := λ w, (Return (f w), w).

Definition modify {W} (f : W → W) : M W unit := λ w, (Return tt, f w).

(** [try: body except <classes>: handler]: [handles e] says whether the
    [except] clause matches [e]. *)
Definition try_except {W A} (body : M W A) (handles : exn → bool)
    (handler : exn → M W A) : M W A :=
  λ w, match body w with
       | (Return a, w') => (Return a, w')
       | (Raise e, w') => if handles e then handler e w' else (Raise e, w')
       end.

(** A library call that either yields a value or raises. *)
Definition lift {W A} (cls : builtin_error) (o : option A) : M W A :=
  match o with
  | Some a => ret a
  | None => raise (Builtin cls)
  end.

Declare Scope py_scope.
Delimit Scope py_scope with py.
Notation "'let*' x ':=' c 'in' k" := (bind c (λ x, k))
  (at level 10, x pattern, c at level 100, k at level 200) : py_scope.
Notation "c ';;;' k" := (bind c (λ _, k))
  (at level 100, k at level 200, right associativity) : py_scope.

(** [str.join]. *)
Fixpoint str_join (sep : string) (l : list string) : string :=
  match l with
  | [] => ""
  | [s] => s
  | s :: rest => s +:+ sep +:+ str_join sep rest
  end.

(** The double-quote character as a one-character string. *)
Definition dquote : string := String (Ascii.ascii_of_nat 34) "".

(** [dict.get(key, default)] on a value that must be a [dict]: on anything
    else the attribute lookup fails. *)
Definition dict_get {W} (v : json) (key : string) (dflt : json) : M W json :=
  match v with
  | JDict d => ret (default dflt (d !! key))
  | _ => raise (Builtin PyAttributeError)
  end.

(** The argument of an [if x:] test on an [Optional[str]], kept only when
    the test passes. *)
Definition present_str (o : option string) : option string :=
  match o with
  | Some s => if String.eqb s "" then None else Some s
  | None => None
  end.

(** The same for an [Optional[List[str]]]. *)
Definition present_list {A} (o : option (list A)) : option (list A) :=
  match o with
  | Some (x :: l) => Some (x :: l)
  | _ => None
  end.

(** [len(v)]: only strings, lists and dicts have a length. *)
Definition py_len {W} (v : json) : M W Z :=
  match v with
  | JStr s => ret (Z.of_nat (String.length s))
  | JList l => ret (Z.of_nat (length l))
  | JDict d => ret (Z.of_nat (size d))
  | _ => raise (Builtin PyTypeError)
  end.

(** *** [datetime]

    A naive [datetime] is a point of the microsecond timeline that starts
    at [datetime.min] (0001-01-01T00:00:00) and ends at [datetime.max]
    (9999-12-31T23:59:59.999999). *)
Abbreviation datetime := Z.

Definition MAXORDINAL : Z := 3652059.
Definition US_PER_SECOND : Z := 1000000.
Definition US_PER_DAY : Z := 86400 * US_PER_SECOND.

Definition valid_datetime (t : datetime) : Prop :=
  0 ≤ t < MAXORDINAL * US_PER_DAY.

(** A [timedelta] in microseconds. *)
Definition seconds (d : Z) : Z := US_PER_SECOND * d.

(** [timedelta(seconds=x)]: [x] must be a number, and the result must have
    at most 999999999 days in either direction. *)
Definition timedelta_seconds {W} (x : json) : M W Z :=
  let make (d : Z) : M W Z :=
    let days := d `div` 86400 in
    if (-999999999 <=? days) && (days <=? 999999999) then ret (seconds d)
    else raise (Builtin PyOverflowError) in
  match x with
  | JInt d => make d
  | JBool b => make (Z.b2z b)
  | _ => raise (Builtin PyTypeError)
  end.

(** [t + delta] on a [datetime]. *)
Definition datetime_add {W} (t : datetime) (delta : Z) : M W datetime :=
  let r := t + delta in
  if (0 <=? r) && (r <? MAXORDINAL * US_PER_DAY) then ret r
  else raise (Builtin PyOverflowError).

(** The text forms of a [datetime]: [isoformat], its inverse
    [fromisoformat] ([None]: [ValueError]) and [strftime]. *)
Class DateTimeFormat : Type := {
  isoformat : datetime → string;
  fromisoformat : string → option datetime;
  strftime : datetime → string → string
}.

(** [datetime.fromisoformat(v)]: the argument must be a [str]. *)
Definition fromisoformat_of `{DateTimeFormat} {W} (v : json) : M W datetime :=
  match v with
  | JStr s => lift PyValueError (fromisoformat s)
  | _ => raise (Builtin PyTypeError)
  end.

(** [json.dumps] and [json.loads] ([None]: [JSONDecodeError]). *)
Class JsonCodec : Type := {
  dumps : json → string;
  loads : string → option json
}.

(** [str.encode()] and [bytes.decode()] ([None]: [UnicodeDecodeError]). *)
Class TextCodec : Type := {
  encode : string → bytes;
  decode : bytes → option string
}.

(** A [cryptography.fernet.Fernet] object with its key: [encrypt] also
    consumes the bytes it draws from the random source and the time it
    reads, [decrypt] yields [None] for [InvalidToken]. *)
Class Fernet : Type := {
  encrypt : bytes → datetime → bytes → bytes;
  decrypt : bytes → option bytes
}.

(** [hashlib.sha256(data).digest()] *)
Class Hashlib : Type := { sha256 : bytes → bytes }.

(** [repr] of the values whose text the code never builds itself. *)
Class Repr : Type := { repr : json → string }.

(** [str(v)], as an f-string interpolates it. *)
Definition py_str `{Repr} (v : json) : string :=
  match v with
  | JStr s => s
  | JNull => "None"
  | JBool true => "True"
  | JBool false => "False"
  | JInt z => pretty z
  | _ => repr v
  end.

End Py.

(** ** [app/graph_client.py] *)

Module Graph_client.
Import Py.
#[local] Open Scope py_scope.

Inductive EmailImportance : Type := LOW | NORMAL | HIGH.

(** [importance.value] *)
Definition importance_value (i : EmailImportance) : string :=
  match i with
  | LOW => "low"
  | NORMAL => "normal"
  | HIGH => "high"
  end.

(** What [httpx.Client.request] is called with. *)
Record Request : Type := mkRequest {
  method : string;
  url : string;
  req_headers : gmap string string;
  req_json : option json;
  req_params : option (gmap string json)
}.

(** What the code reads of an [httpx.Response]: [resp_headers] holds the
    values [response.headers.get(name)] finds, under the names the code
    asks for; [response_json] is the result of [response.json()], [None]
    when that call raises. *)
Record Response : Type := mkResponse {
  status_code : Z;
  text : string;
  resp_headers : gmap string string;
  response_json : option json
}.

(** The outcome of one [client.request(...)]: a response, or an exception
    raised by the transport. *)
Inductive reply : Type :=
| Responded (r : Response)
| Failed (cls : transport_error) (msg : string).

(** The world of one client: the remote service (what it answers to the
    request that follows [n] earlier ones), the requests issued so far and
    the [time.sleep] calls made so far, oldest first. *)
Record World : Type := mkWorld {
  network : nat → Request → reply;
  sent : list Request;
  slept : list Z
}.

Record GraphClient : Type := mkGraphClient {
  access_token : string;
  headers : gmap string string
}.

Definition BASE_URL : string := "https://graph.microsoft.com/v1.0".
Definition MAX_RETRIES : nat := 3.
Definition INITIAL_RETRY_DELAY : Z := 1.

(** [GraphClient.__init__] *)
Definition __init__ (access_token : string) : GraphClient :=
  {| access_token := access_token;
     headers := <["Authorization" := "Bearer " +:+ access_token]>
                (<["Content-Type" := "application/json"]> ∅) |}.

(** [with httpx.Client(timeout=30.0) as client: client.request(...)] *)
Definition client_request (req : Request) : M World Response :=
  λ w,
    let w' := {| network := network w; sent := sent w ++ [req]; slept := slept w |} in
    match network w (length (sent w)) req with
    | Responded r => (Return r, w')
    | Failed cls msg => (Raise (Transport cls msg), w')
    end.

(** [time.sleep(delay)] *)
Definition sleep (delay : Z) : M World unit :=
  modify (λ w, {| network := network w; sent := sent w; slept := slept w ++ [delay] |}).

(** [except (httpx.TimeoutException, httpx.NetworkError)] *)
Definition is_timeout_or_network (e : exn) : bool :=
  match e with
  | Transport TimeoutException _ | Transport NetworkError _ => true
  | _ => false
  end.

(** [str(e)] of a caught transport exception. *)
Definition exn_str (e : exn) : string :=
  match e with
  | GraphAPIError m | TokenExpiredError m | RateLimitError m | ValueError m
  | Transport _ m => m
  | Builtin _ => ""
  end.

(** [int(s)] for a [str] argument (base 10, ASCII text): optional blanks,
    an optional sign, then decimal digits, single underscores allowed
    between digits, optional blanks; more than 4300 digits is refused
    (the interpreter's default [int_max_str_digits]).  [None] stands for
    [ValueError]. *)
Definition is_space (a : Ascii.ascii) : bool :=
  let n := Ascii.nat_of_ascii a in
  ((9 <=? n) && (n <=? 13) || (28 <=? n) && (n <=? 32))%nat.

Definition digit_value (a : Ascii.ascii) : option Z :=
  let n := Ascii.nat_of_ascii a in
  if ((48 <=? n) && (n <=? 57))%nat then Some (Z.of_nat n - 48) else None.

Inductive scan_state : Type := AtStart | AfterDigit | AfterUnderscore.

(** Character tests by code: 95 is the underscore, 45 the minus sign, 43 the
    plus sign. *)
Definition has_code (n : nat) (a : Ascii.ascii) : bool :=
  (Ascii.nat_of_ascii a =? n)%nat.

Fixpoint scan_digits (l : list Ascii.ascii) (prev : scan_state) (acc : Z) (count : nat)
    : option (Z * nat * list Ascii.ascii) :=
  let finish :=
    match prev with
    | AfterDigit => Some (acc, count, l)
    | _ => None
    end in
  match l with
  | [] => finish
  | c :: rest =>
      match digit_value c with
      | Some d => scan_digits rest AfterDigit (10 * acc + d) (S count)
      | None =>
          if has_code 95 c then
            match prev with
            | AfterDigit => scan_digits rest AfterUnderscore acc count
            | _ => None
            end
          else finish
      end
  end.

Fixpoint skip_spaces (l : list Ascii.ascii) : list Ascii.ascii :=
  match l with
  | c :: rest => if is_space c then skip_spaces rest else l
  | [] => []
  end.

Definition int_max_str_digits : nat := 4300.

Definition py_int (s : string) : option Z :=
  let l := skip_spaces (String.list_ascii_of_string s) in
  let '(negative, l) :=
    match l with
    | c :: rest =>
        if has_code 45 c then (true, rest)
        else if has_code 43 c then (false, rest)
        else (false, l)
    | [] => (false, l)
    end in
  match scan_digits l AtStart 0 0 with
  | Some (v, count, rest) =>
      if (int_max_str_digits <? count)%nat then None
      else match skip_spaces rest with
           | [] => Some (if negative then - v else v)
           | _ => None
           end
  | None => None
  end.

(** [int(response.headers.get("Retry-After", 60))] *)
Definition retry_after_of (response : Response) : M World Z :=
  match resp_headers response !! "Retry-After" with
  | None => ret 60
  | Some s => lift PyValueError (py_int s)
  end.

(** The message extraction of the 4xx branch: the provider's
    [error.message] when the body parses to that shape, else the response
    text; the bare [except: pass] swallows every failure on the way. *)
Definition api_error_message (response : Response) : json :=
  match response_json response with
  | Some (JDict d) =>
      match default (JDict ∅) (d !! "error") with
      | JDict e => default (JStr (text response)) (e !! "message")
      | _ => JStr (text response)
      end
  | _ => JStr (text response)
  end.

Section Executor.
Context `{Repr} `{DateTimeFormat}.

(** [GraphClient._make_request].  The [logger] calls are left out: they
    format values the function has already computed and touch nothing the
    function returns or sends.  [retry_count] is a natural number: every
    caller leaves it at its default [0] and the function itself only
    passes [retry_count + 1]. *)
Equations? _make_request (self : GraphClient) (method endpoint : string)
    (data : option json) (params : option (gmap string json))
    (retry_count : nat) : M World json by wf (MAX_RETRIES - retry_count)%nat lt :=
  _make_request self method endpoint data params retry_count :=
    let url := BASE_URL +:+ endpoint in
    try_except
      (let* response := client_request
         {| method := method; url := url; req_headers := headers self;
            req_json := data; req_params := params |} in
       if status_code response =? 401 then
         raise (TokenExpiredError "Access token expired or invalid")
       else if status_code response =? 429 then
         let* retry_after := retry_after_of response in
         raise (RateLimitError ("Rate limit exceeded. Retry after "
                                +:+ pretty retry_after +:+ " seconds"))
       else if 500 <=? status_code response then
         match decide (retry_count < MAX_RETRIES)%nat with
         | left _ =>
             let delay := INITIAL_RETRY_DELAY * 2 ^ Z.of_nat retry_count in
             sleep delay ;;;
             _make_request self method endpoint data params (retry_count + 1)%nat
         | right _ =>
             raise (GraphAPIError ("Server error after " +:+ pretty MAX_RETRIES
                                   +:+ " retries: " +:+ text response))
         end
       else if 400 <=? status_code response then
         let error_msg := api_error_message response in
         raise (GraphAPIError ("API error " +:+ pretty (status_code response)
                               +:+ ": " +:+ py_str error_msg))
       else if status_code response =? 204 then
         ret (JDict ∅)
       else
         lift PyJSONDecodeError (response_json response))
      is_timeout_or_network
      (λ e,
         match decide (retry_count < MAX_RETRIES)%nat with
         | left _ =>
             let delay := INITIAL_RETRY_DELAY * 2 ^ Z.of_nat retry_count in
             sleep delay ;;;
             _make_request self method endpoint data params (retry_count + 1)%nat
         | right _ =>
             raise (GraphAPIError ("Network error after " +:+ pretty MAX_RETRIES
                                   +:+ " retries: " +:+ exn_str e))
         end).
Proof. all: lia. Qed.

(** The request one call of [_make_request] issues, on every attempt. *)
Definition issued_request (self : GraphClient) (method endpoint : string)
    (data : option json) (params : option (gmap string json)) : Request :=
  {| method := method; url := BASE_URL +:+ endpoint; req_headers := headers self;
     req_json := data; req_params := params |}.

(** The world after [n] more attempts of [request] and the given sleeps. *)
Definition after_attempts (w : World) (request : Request) (n : nat)
    (delays : list Z) : World :=
  {| network := network w; sent := sent w ++ replicate n request;
     slept := slept w ++ delays |}.

(** The sleeps of [n] retries in a row, the first at [retry_count]. *)
Definition backoff_delays (retry_count n : nat) : list Z :=
  map (λ k, INITIAL_RETRY_DELAY * 2 ^ Z.of_nat k) (seq retry_count n).

(** What the success branch returns for a response: the empty dict for a
    204, else the parsed body; [None] when [response.json()] raises. *)
Definition success_result (response : Response) : option json :=
  if status_code response =? 204 then Some (JDict ∅) else response_json response.

(** The recipient lists of a message:
    [[{"emailAddress": {"address": addr}} for addr in addrs]] *)
Definition recipients (addrs : list string) : json :=
  JList (map (λ addr,
    JDict (<["emailAddress" := JDict (<["address" := JStr addr]> ∅)]> ∅)) addrs).

(** The message object both [write_email] and [send_email] build. *)
Definition build_message (to : list string) (subject body : string)
    (cc : option (list string)) (importance : EmailImportance)
    (body_type : string) : gmap string json :=
  let message : gmap string json :=
    <["subject" := JStr subject]>
    (<["importance" := JStr (importance_value importance)]>
    (<["body" := JDict (<["contentType" := JStr body_type]>
                       (<["content" := JStr body]> ∅))]>
    (<["toRecipients" := recipients to]> ∅))) in
  match present_list cc with
  | Some cc => <["ccRecipients" := recipients cc]> message
  | None => message
  end.

(** [GraphClient.send_email] *)
Definition send_email (self : GraphClient) (draft_id : option string)
    (to : option (list string)) (subject body : option string)
    (cc : option (list string)) (importance : EmailImportance)
    (body_type : string) : M World unit :=
  match present_str draft_id with
  | Some draft_id =>
      let endpoint := "/me/messages/" +:+ draft_id +:+ "/send" in
      _make_request self "POST" endpoint None None 0 ;;;
      ret tt
  | None =>
      match present_list to, present_str subject, present_str body with
      | Some to, Some subject, Some body =>
          let message := build_message to subject body cc importance body_type in
          let endpoint := "/me/sendMail" in
          _make_request self "POST" endpoint
            (Some (JDict (<["message" := JDict message]> ∅))) None 0 ;;;
          ret tt
      | _, _, _ =>
          raise (ValueError
            "to, subject, and body are required when draft_id is not provided")
      end
  end.

(** [GraphClient.search_emails].  The closing [logger.info] call is kept
    for the one thing it can do to the result: it takes [len(messages)]. *)
Definition search_emails (self : GraphClient) (query : option string)
    (folder : string) (top : Z) (from_date : option datetime) : M World json :=
  let endpoint := "/me/mailFolders/" +:+ folder +:+ "/messages" in
  let params : gmap string json :=
    <["$top" := JInt (Z.min top 1000)]>
    (<["$orderby" := JStr "receivedDateTime DESC"]> ∅) in
  let filters : list string :=
    match from_date with
    | Some from_date =>
        let date_str := strftime from_date "%Y-%m-%dT%H:%M:%SZ" in
        ["receivedDateTime ge " +:+ date_str]
    | None => []
    end in
  let params :=
    match filters with
    | [] => params
    | _ => <["$filter" := JStr (str_join " and " filters)]> params
    end in
  let params :=
    match present_str query with
    | Some query => <["$search" := JStr (dquote +:+ query +:+ dquote)]> params
    | None => params
    end in
  let* result := _make_request self "GET" endpoint None (Some params) 0 in
  let* messages := dict_get result "value" (JList []) in
  let* _ := py_len messages in
  ret messages.

(** The query parameters [search_emails] passes to the executor. *)
Definition search_query_params (query : option string) (top : Z)
    (from_date : option datetime) : gmap string json :=
  let params : gmap string json :=
    <["$top" := JInt (Z.min top 1000)]>
    (<["$orderby" := JStr "receivedDateTime DESC"]> ∅) in
  let params :=
    match from_date with
    | Some from_date =>
        <["$filter" := JStr ("receivedDateTime ge "
                             +:+ strftime from_date "%Y-%m-%dT%H:%M:%SZ")]> params
    | None => params
    end in
  match present_str query with
  | Some query => <["$search" := JStr (dquote +:+ query +:+ dquote)]> params
  | None => params
  end.

(** [GraphClient.write_email].  The closing [logger.info] call is kept for
    the one thing it can do: it calls [result.get('id')]. *)
Definition write_email (self : GraphClient) (to : list string)
    (subject body : string) (cc : option (list string))
    (importance : EmailImportance) (body_type : string) : M World json :=
  let message := build_message to subject body cc importance body_type in
  let endpoint := "/me/messages" in
  let* result := _make_request self "POST" endpoint (Some (JDict message)) None 0 in
  let* _ := dict_get result "id" JNull in
  ret result.

(** [GraphClient.read_email] *)
Definition read_email (self : GraphClient) (message_id : string) : M World json :=
  let endpoint := "/me/messages/" +:+ message_id in
  let* result := _make_request self "GET" endpoint None None 0 in
  ret result.

(** The [{"dateTime": ..., "timeZone": ...}] object of the calendar
    operations. *)
Definition date_time_zone (t : datetime) (timezone : string) : json :=
  JDict (<["dateTime" := JStr (strftime t "%Y-%m-%dT%H:%M:%S")]>
         (<["timeZone" := JStr timezone]> ∅)).

(** [GraphClient.check_scheduling_assistant] *)
Definition check_scheduling_assistant (self : GraphClient)
    (attendees : list string) (duration : Z) (start_date end_date : datetime)
    (timezone : string) : M World json :=
  let endpoint := "/me/calendar/getSchedule" in
  let data : gmap string json :=
    <["schedules" := JList (map JStr attendees)]>
    (<["startTime" := date_time_zone start_date timezone]>
    (<["endTime" := date_time_zone end_date timezone]>
    (<["availabilityViewInterval" := JInt duration]> ∅))) in
  let* result := _make_request self "POST" endpoint (Some (JDict data)) None 0 in
  ret result.

(** The attendee list of an event:
    [[{"emailAddress": {"address": addr}, "type": "required"} for addr in attendees]] *)
Definition required_attendees (attendees : list string) : json :=
  JList (map (λ addr,
    JDict (<["emailAddress" := JDict (<["address" := JStr addr]> ∅)]>
           (<["type" := JStr "required"]> ∅))) attendees).

(** The event object [schedule_meeting] builds. *)
Definition build_event (subject : string) (attendees : list string)
    (start_time end_time : datetime) (location body : option string)
    (is_online : bool) (timezone : string) : gmap string json :=
  let event : gmap string json :=
    <["subject" := JStr subject]>
    (<["start" := date_time_zone start_time timezone]>
    (<["end" := date_time_zone end_time timezone]>
    (<["attendees" := required_attendees attendees]> ∅))) in
  let event :=
    match present_str location with
    | Some location =>
        <["location" := JDict (<["displayName" := JStr location]> ∅)]> event
    | None => event
    end in
  let event :=
    match present_str body with
    | Some body =>
        <["body" := JDict (<["contentType" := JStr "HTML"]>
                           (<["content" := JStr body]> ∅))]> event
    | None => event
    end in
  if is_online then
    <["onlineMeetingProvider" := JStr "teamsForBusiness"]>
      (<["isOnlineMeeting" := JBool true]> event)
  else event.

(** [GraphClient.schedule_meeting]; the closing [logger.info] call reads
    [result.get('id')]. *)
Definition schedule_meeting (self : GraphClient) (subject : string)
    (attendees : list string) (start_time end_time : datetime)
    (location body : option string) (is_online : bool) (timezone : string)
    : M World json :=
  let event :=
    build_event subject attendees start_time end_time location body is_online
      timezone in
  let endpoint := "/me/events" in
  let* result := _make_request self "POST" endpoint (Some (JDict event)) None 0 in
  let* _ := dict_get result "id" JNull in
  ret result.

(** The answers the executor retries: a server error, a timeout, a network
    error. *)
Definition retryable (answer : reply) : bool :=
  match answer with
  | Responded response => 500 <=? status_code response
  | Failed TimeoutException _ | Failed NetworkError _ => true
  | Failed OtherTransportError _ => false
  end.

(** The failure a call ends in when its last permitted attempt is answered
    by a retryable answer. *)
Definition exhausted_error (answer : reply) : exn :=
  match answer with
  | Responded response =>
      GraphAPIError ("Server error after 3 retries: " +:+ text response)
  | Failed _ msg => GraphAPIError ("Network error after 3 retries: " +:+ msg)
  end.

End Executor.

End Graph_client.

(** ** [app/token_storage.py] *)

Module Token_storage.
Import Py.
#[local] Open Scope py_scope.

(** The fields of a [TokenStorage] object besides its cipher. *)
Record TokenStorage : Type := mkTokenStorage {
  _tokens : gmap string bytes;
  _verifiers : gmap string string
}.

(** References to [dict] objects that callers hold. *)
Abbreviation ref := positive.

(** The world the store runs in: the storage object, the [dict] objects
    callers pass by reference, the clock [datetime.utcnow()] reads and the
    bytes the random source yields next. *)
Record World : Type := mkWorld {
  storage : TokenStorage;
  heap : gmap ref (gmap string json);
  clock : datetime;
  entropy : bytes
}.

Definition with_tokens (f : gmap string bytes → gmap string bytes) (w : World) : World :=
  {| storage := {| _tokens := f (_tokens (storage w));
                   _verifiers := _verifiers (storage w) |};
     heap := heap w; clock := clock w; entropy := entropy w |}.

Definition with_verifiers (f : gmap string string → gmap string string) (w : World) : World :=
  {| storage := {| _tokens := _tokens (storage w);
                   _verifiers := f (_verifiers (storage w)) |};
     heap := heap w; clock := clock w; entropy := entropy w |}.

Definition with_heap (f : gmap ref (gmap string json) → gmap ref (gmap string json))
    (w : World) : World :=
  {| storage := storage w; heap := f (heap w); clock := clock w; entropy := entropy w |}.

(** What the environment does between two calls: time passes and the random
    source moves on. *)
Definition later (t : datetime) (iv : bytes) (w : World) : World :=
  {| storage := storage w; heap := heap w; clock := t; entropy := iv |}.

(** [TokenStorage.__init__]: both maps start empty. *)
Definition __init__ : TokenStorage :=
  {| _tokens := ∅; _verifiers := ∅ |}.

(** [datetime.utcnow()] *)
Definition utcnow : M World datetime := gets clock.

(** [tokens[key] = value] on a referenced object, which must be a [dict]. *)
Definition setitem (tokens : ref) (key : string) (value : json) : M World unit :=
  λ w, match heap w !! tokens with
       | Some d => (Return tt, with_heap (<[tokens := <[key := value]> d]>) w)
       | None => (Raise (Builtin PyTypeError), w)
       end.

(** The current content of a referenced [dict]. *)
Definition deref (tokens : ref) : M World json :=
  λ w, match heap w !! tokens with
       | Some d => (Return (JDict d), w)
       | None => (Raise (Builtin PyTypeError), w)
       end.

Section Store.
Context `{Fernet} `{JsonCodec} `{TextCodec} `{DateTimeFormat}.

(** [TokenStorage.store_code_verifier] *)
Definition store_code_verifier (state code_verifier : string) : M World unit :=
  modify (with_verifiers (<[state := code_verifier]>)).

(** [TokenStorage.get_code_verifier]: [self._verifiers.pop(state, None)] *)
Definition get_code_verifier (state : string) : M World (option string) :=
  let* found := gets (λ w, _verifiers (storage w) !! state) in
  modify (with_verifiers (delete state)) ;;;
  ret found.

(** [TokenStorage.store_tokens]; [tokens] is the caller's [dict] object. *)
Definition store_tokens (user_id : string) (tokens : ref) : M World unit :=
  let* now := utcnow in
  setitem tokens "stored_at" (JStr (isoformat now)) ;;;
  let* content := deref tokens in
  let token_json := dumps content in
  let* iv := gets entropy in
  let* time := gets clock in
  let encrypted := encrypt iv time (encode token_json) in
  modify (with_tokens (<[user_id := encrypted]>)).

(** [TokenStorage.get_tokens]; [JNull] is Python's [None]. *)
Definition get_tokens (user_id : string) : M World json :=
  let* encrypted := gets (λ w, _tokens (storage w) !! user_id) in
  if negb (truthy_bytes encrypted) then ret JNull
  else
    try_except
      (let* decrypted := lift InvalidToken (decrypt (default [] encrypted)) in
       let* text := lift PyUnicodeDecodeError (decode decrypted) in
       let* tokens := lift PyJSONDecodeError (loads text) in
       ret tokens)
      (λ _, true)
      (λ _, modify (with_tokens (delete user_id)) ;;;
            ret JNull).

(** [TokenStorage.delete_tokens] *)
Definition delete_tokens (user_id : string) : M World bool :=
  let* found := gets (λ w, _tokens (storage w) !! user_id) in
  match found with
  | Some _ => modify (with_tokens (delete user_id)) ;;; ret true
  | None => ret false
  end.

(** [TokenStorage.is_token_expired] *)
Definition is_token_expired (user_id : string) : M World bool :=
  let* tokens := get_tokens user_id in
  if negb (truthy tokens) then ret true
  else
    let* stored := dict_get tokens "stored_at" (JStr "") in
    let* stored_at := fromisoformat_of stored in
    let* expires_in := dict_get tokens "expires_in" (JInt 0) in
    let* delta := timedelta_seconds expires_in in
    let* expiry_time := datetime_add stored_at delta in
    let* now := utcnow in
    ret (expiry_time <=? now).

(** What the [try] block of [get_tokens] computes from a ciphertext:
    decrypt, decode, parse; [None] when any of the three raises. *)
Definition unseal (encrypted : bytes) : option json :=
  decrypted ← decrypt encrypted;
  text ← decode decrypted;
  loads text.

(** The libraries round-trip the value [v] sealed with the random bytes
    [iv] at time [time]: the token is not empty and decrypts to the bytes
    that went in, those decode to the text that was encoded, and that text
    parses to [v]. *)
Definition round_trips (iv : bytes) (time : datetime) (v : json) : Prop :=
  let plaintext := encode (dumps v) in
  let token := encrypt iv time plaintext in
  truthy_bytes (Some token) = true
  ∧ decrypt token = Some plaintext
  ∧ decode plaintext = Some (dumps v)
  ∧ loads (dumps v) = Some v.

End Store.

End Token_storage.

(** ** [app/graph_utils.py] *)

Module Graph_utils.
Import Py Token_storage.
#[local] Open Scope py_scope.

Section Utils.
Context `{Fernet} `{JsonCodec} `{TextCodec} `{DateTimeFormat} `{Repr}.

(** [get_graph_client].  [GraphClient(access_token)] keeps the value it is
    given and puts its text after "Bearer "; the record keeps the text,
    which for a [str] token is the token itself. *)
Definition get_graph_client (user_id : string)
    : M World (option Graph_client.GraphClient) :=
  let* tokens := get_tokens user_id in
  if negb (truthy tokens) then ret None
  else
    let* access_token := dict_get tokens "access_token" JNull in
    if negb (truthy access_token) then ret None
    else ret (Some (Graph_client.__init__ (py_str access_token))).

(** [ensure_valid_token] *)
Definition ensure_valid_token (user_id : string) : M World bool :=
  let* tokens := get_tokens user_id in
  if negb (truthy tokens) then ret false
  else
    let* expired := is_token_expired user_id in
    if expired then ret false
    else ret true.

End Utils.

End Graph_utils.

(** ** [app/pkce.py] *)

Module Pkce.
Import Py.
#[local] Open Scope py_scope.

(** *** [base64.urlsafe_b64encode] (RFC 4648, section 5) *)

Definition urlsafe_alphabet : string :=
  "ABCDEFGHIJKLMNOPQRSTUVWXYZabcdefghijklmnopqrstuvwxyz0123456789-_".

(** The character of a six-bit value. *)
Definition sextet (n : N) : Byte.byte :=
  nth (N.to_nat (n mod 64)%N) (String.list_byte_of_string urlsafe_alphabet) Byte.x00.

(** The padding character, "=". *)
Definition pad : Byte.byte := Byte.x3d.

Fixpoint urlsafe_b64encode (data : bytes) : bytes :=
  match data with
  | a :: b :: c :: rest =>
      let n := (Byte.to_N a * 65536 + Byte.to_N b * 256 + Byte.to_N c)%N in
      sextet (n / 262144) :: sextet (n / 4096) :: sextet (n / 64) :: sextet n
      :: urlsafe_b64encode rest
  | [a; b] =>
      let n := (Byte.to_N a * 65536 + Byte.to_N b * 256)%N in
      [sextet (n / 262144); sextet (n / 4096); sextet (n / 64); pad]
  | [a] =>
      let n := (Byte.to_N a * 65536)%N in
      [sextet (n / 262144); sextet (n / 4096); pad; pad]
  | [] => []
  end.

(** [s.rstrip(chars)] for a one-character [chars]. *)
Fixpoint rstrip (c : Ascii.ascii) (s : string) : string :=
  match s with
  | EmptyString => EmptyString
  | String a rest =>
      match rstrip c rest with
      | EmptyString => if Ascii.eqb a c then EmptyString else String a EmptyString
      | stripped => String a stripped
      end
  end.

(** The character "=". *)
Definition equals_sign : Ascii.ascii := Ascii.ascii_of_byte pad.

(** The characters a verifier or challenge may hold: letters, digits, "-"
    and "_". *)
Definition urlsafe_char (a : Ascii.ascii) : bool :=
  let n := Ascii.nat_of_ascii a in
  ((65 <=? n) && (n <=? 90) || (97 <=? n) && (n <=? 122)
   || (48 <=? n) && (n <=? 57) || (n =? 45) || (n =? 95))%nat.

Fixpoint all_chars (p : Ascii.ascii → bool) (s : string) : bool :=
  match s with
  | EmptyString => true
  | String a rest => p a && all_chars p rest
  end.

(** The random source: an endless supply of bytes and the number drawn so
    far. *)
Record World : Type := mkWorld {
  random : nat → Byte.byte;
  drawn : nat
}.

(** The next [n] bytes of the source. *)
Definition next_bytes (n : nat) (w : World) : bytes :=
  map (random w) (seq (drawn w) n).

(** [secrets.token_bytes(n)] *)
Definition token_bytes (n : nat) : M World bytes :=
  λ w, (Return (next_bytes n w), {| random := random w; drawn := drawn w + n |}).

Section Pkce.
Context `{TextCodec} `{Hashlib}.

(** [generate_code_verifier]; [s[:length]] is a prefix because [length] has
    passed the bounds check. *)
Definition generate_code_verifier (length : Z) : M World string :=
  if negb ((43 <=? length) && (length <=? 128)) then
    raise (ValueError "Code verifier length must be between 43 and 128")
  else
    let* raw := token_bytes 96 in
    let* code_verifier := lift PyUnicodeDecodeError (decode (urlsafe_b64encode raw)) in
    ret (String.substring 0 (Z.to_nat length) (rstrip equals_sign code_verifier)).

(** [generate_code_challenge] *)
Definition generate_code_challenge (code_verifier : string) : M World string :=
  let digest := sha256 (encode code_verifier) in
  let* text := lift PyUnicodeDecodeError (decode (urlsafe_b64encode digest)) in
  let code_challenge := rstrip equals_sign text in
  ret code_challenge.

(** [generate_pkce_pair] *)
Definition generate_pkce_pair : M World (string * string) :=
  let* code_verifier := generate_code_verifier 128 in
  let* code_challenge := generate_code_challenge code_verifier in
  ret (code_verifier, code_challenge).

(** The codec reads the ASCII bytes [b] as the characters with those
    codes. *)
Definition reads_as_ascii (b : bytes) : Prop :=
  decode b = Some (String.string_of_list_byte b).

End Pkce.

End Pkce.

(** ** Reference instances of the library interfaces

    Small executable stand-ins for the libraries, used to run the model on
    concrete inputs.  The calendar and the JSON text are the real ones for
    the shapes the code produces; the cipher only has Fernet's interface. *)

Module Reference.
Import Py.

(** The first character of a literal. *)
Definition ch (s : string) : Ascii.ascii :=
  match s with
  | String c _ => c
  | EmptyString => Ascii.zero
  end.

Definition is_digit (c : Ascii.ascii) : bool :=
  let n := Ascii.nat_of_ascii c in ((48 <=? n) && (n <=? 57))%nat.

Definition digit_of (c : Ascii.ascii) : Z := Z.of_nat (Ascii.nat_of_ascii c) - 48.

(** *** [repr] *)

Fixpoint py_repr (v : json) : string :=
  match v with
  | JNull => "None"
  | JBool b => if b then "True" else "False"
  | JInt z => pretty z
  | JStr s => "'" +:+ s +:+ "'"
  | JList l => "[" +:+ str_join ", " (map py_repr l) +:+ "]"
  | JDict d =>
      "{" +:+ str_join ", "
        (map_fold (λ k v acc, ("'" +:+ k +:+ "': " +:+ py_repr v) :: acc) [] d)
      +:+ "}"
  end.

#[export] Instance reference_repr : Repr := {| repr := py_repr |}.

(** *** JSON text *)

(** String bodies escape the quote and the backslash. *)
Fixpoint escape (s : string) : string :=
  match s with
  | EmptyString => ""
  | String c rest =>
      if Ascii.eqb c (ch dquote) || Ascii.eqb c (ch "\") then
        String (ch "\") (String c (escape rest))
      else String c (escape rest)
  end.

Definition quoted (s : string) : string := dquote +:+ escape s +:+ dquote.

Fixpoint json_text (v : json) : string :=
  match v with
  | JNull => "null"
  | JBool b => if b then "true" else "false"
  | JInt z => pretty z
  | JStr s => quoted s
  | JList l => "[" +:+ str_join ", " (map json_text l) +:+ "]"
  | JDict d =>
      "{" +:+ str_join ", "
        (map_fold (λ k v acc, (quoted k +:+ ": " +:+ json_text v) :: acc) [] d)
      +:+ "}"
  end.

Fixpoint skip_blank (s : string) : string :=
  match s with
  | String c rest => if Ascii.eqb c (ch " ") then skip_blank rest else s
  | EmptyString => s
  end.

Fixpoint strip_prefix (p s : string) : option string :=
  match p, s with
  | EmptyString, _ => Some s
  | String a p', String b s' => if Ascii.eqb a b then strip_prefix p' s' else None
  | _, _ => None
  end.

(** The body of a string literal up to its closing quote. *)
Fixpoint parse_string_body (s : string) : option (string * string) :=
  match s with
  | EmptyString => None
  | String c rest =>
      if Ascii.eqb c (ch dquote) then Some ("", rest)
      else if Ascii.eqb c (ch "\") then
        match rest with
        | String e rest' =>
            match parse_string_body rest' with
            | Some (body, after) => Some (String e body, after)
            | None => None
            end
        | EmptyString => None
        end
      else
        match parse_string_body rest with
        | Some (body, after) => Some (String c body, after)
        | None => None
        end
  end.

Fixpoint parse_digits (s : string) (acc : Z) : Z * string :=
  match s with
  | String c rest => if is_digit c then parse_digits rest (10 * acc + digit_of c) else (acc, s)
  | EmptyString => (acc, s)
  end.

Definition parse_int (s : string) : option (json * string) :=
  let '(negative, body) :=
    match s with
    | String c rest => if Ascii.eqb c (ch "-") then (true, rest) else (false, s)
    | EmptyString => (false, s)
    end in
  match body with
  | String c _ =>
      if is_digit c then
        let '(n, after) := parse_digits body 0 in
        Some (JInt (if negative then - n else n), after)
      else None
  | EmptyString => None
  end.

Fixpoint parse_value (fuel : nat) (s : string) : option (json * string) :=
  match fuel with
  | O => None
  | S fuel =>
      let s := skip_blank s in
      match strip_prefix "null" s, strip_prefix "true" s, strip_prefix "false" s with
      | Some after, _, _ => Some (JNull, after)
      | _, Some after, _ => Some (JBool true, after)
      | _, _, Some after => Some (JBool false, after)
      | _, _, _ =>
          match s with
          | String c rest =>
              if Ascii.eqb c (ch dquote) then
                match parse_string_body rest with
                | Some (body, after) => Some (JStr body, after)
                | None => None
                end
              else if Ascii.eqb c (ch "[") then
                match strip_prefix "]" (skip_blank rest) with
                | Some after => Some (JList [], after)
                | None =>
                    match parse_elements fuel rest with
                    | Some (l, after) => Some (JList l, after)
                    | None => None
                    end
                end
              else if Ascii.eqb c (ch "{") then
                match strip_prefix "}" (skip_blank rest) with
                | Some after => Some (JDict ∅, after)
                | None =>
                    match parse_members fuel rest with
                    | Some (d, after) => Some (JDict d, after)
                    | None => None
                    end
                end
              else parse_int s
          | EmptyString => None
          end
      end
  end
with parse_elements (fuel : nat) (s : string) : option (list json * string) :=
  match fuel with
  | O => None
  | S fuel =>
      match parse_value fuel s with
      | Some (v, after) =>
          let after := skip_blank after in
          match strip_prefix "]" after, strip_prefix "," after with
          | Some after, _ => Some ([v], after)
          | _, Some after =>
              match parse_elements fuel after with
              | Some (l, after) => Some (v :: l, after)
              | None => None
              end
          | _, _ => None
          end
      | None => None
      end
  end
with parse_members (fuel : nat) (s : string) : option (gmap string json * string) :=
  match fuel with
  | O => None
  | S fuel =>
      match strip_prefix dquote (skip_blank s) with
      | Some after =>
          match parse_string_body after with
          | Some (key, after) =>
              match strip_prefix ":" (skip_blank after) with
              | Some after =>
                  match parse_value fuel after with
                  | Some (v, after) =>
                      let after := skip_blank after in
                      match strip_prefix "}" after, strip_prefix "," after with
                      | Some after, _ => Some (<[key := v]> ∅, after)
                      | _, Some after =>
                          match parse_members fuel after with
                          | Some (d, after) => Some (<[key := default v (d !! key)]> d, after)
                          | None => None
                          end
                      | _, _ => None
                      end
                  | None => None
                  end
              | None => None
              end
          | None => None
          end
      | None => None
      end
  end.

Definition json_parse (s : string) : option json :=
  match parse_value (S (String.length s)) s with
  | Some (v, after) =>
      match skip_blank after with
      | EmptyString => Some v
      | _ => None
      end
  | None => None
  end.

#[export] Instance reference_json : JsonCodec :=
  {| dumps := json_text; loads := json_parse |}.

(** *** Text encoding: ASCII text is its own UTF-8 encoding; other bytes
    are refused. *)

Definition ascii_byte (b : Byte.byte) : bool := (Byte.to_N b <? 128)%N.

Definition ascii_decode (b : bytes) : option string :=
  if forallb ascii_byte b then Some (String.string_of_list_byte b) else None.

#[export] Instance reference_text : TextCodec :=
  {| encode := String.list_byte_of_string; decode := ascii_decode |}.

(** *** A stand-in cipher

    A token is a version byte, a 16-byte IV, the payload masked with the
    key and the IV, and a checksum byte.  It is not Fernet; it has the two
    properties the store relies on: tokens are never empty, and only
    well-formed tokens decrypt. *)

Definition byte_of_N (n : N) : Byte.byte :=
  default Byte.x00 (Byte.of_N (n mod 256)%N).

Definition key_byte : N := 90.

Definition pad_iv (iv : bytes) : bytes := take 16 (iv ++ replicate 16 Byte.x00).

Definition mask (iv : bytes) (b : Byte.byte) : Byte.byte :=
  byte_of_N (N.lxor (N.lxor (Byte.to_N b) key_byte)
                    (Byte.to_N (default Byte.x00 (head iv)))).

Definition checksum (l : bytes) : Byte.byte :=
  byte_of_N (foldr (λ b acc, (Byte.to_N b + 31 * acc + key_byte) mod 256)%N 7%N l).

Definition toy_encrypt (iv : bytes) (time : datetime) (data : bytes) : bytes :=
  let iv := pad_iv iv in
  let body := Byte.x80 :: iv ++ map (mask iv) data in
  body ++ [checksum body].

Definition toy_decrypt (token : bytes) : option bytes :=
  match token with
  | version :: rest =>
      let n := length rest in
      let iv := take 16 rest in
      let masked := take (n - 17) (drop 16 rest) in
      let body := version :: iv ++ masked in
      let sealed :=
        match drop (n - 1) rest with
        | [c] => Byte.eqb c (checksum body)
        | _ => false
        end in
      if Byte.eqb version Byte.x80 && (17 <=? n)%nat && sealed
      then Some (map (mask iv) masked)
      else None
  | [] => None
  end.

#[export] Instance reference_fernet : Fernet :=
  {| encrypt := toy_encrypt; decrypt := toy_decrypt |}.

(** *** The calendar *)

Definition is_leap (y : Z) : bool :=
  (y mod 4 =? 0) && (negb (y mod 100 =? 0) || (y mod 400 =? 0)).

Definition days_before_year (y : Z) : Z :=
  let y := y - 1 in y * 365 + y `div` 4 - y `div` 100 + y `div` 400.

Definition days_in_month (y m : Z) : Z :=
  if m =? 2 then (if is_leap y then 29 else 28)
  else if (m =? 4) || (m =? 6) || (m =? 9) || (m =? 11) then 30
  else 31.

Definition days_before_month (y m : Z) : Z :=
  foldr (λ k acc, days_in_month y (Z.of_nat k) + acc) 0 (seq 1 (Z.to_nat (m - 1))).

(** Year, month and day of the day with ordinal [n] (day 1 is 0001-01-01). *)
Definition ord2ymd (n : Z) : Z * Z * Z :=
  let n := n - 1 in
  let n400 := n `div` 146097 in
  let n := n `mod` 146097 in
  let n100 := n `div` 36524 in
  let n := n `mod` 36524 in
  let n4 := n `div` 1461 in
  let n := n `mod` 1461 in
  let n1 := n `div` 365 in
  let n := n `mod` 365 in
  let year := n400 * 400 + 1 + n100 * 100 + n4 * 4 + n1 in
  if (n1 =? 4) || (n100 =? 4) then (year - 1, 12, 31)
  else
    let month := (n + 50) `div` 32 in
    let preceding := days_before_month year month in
    if n <? preceding then
      (year, month - 1, n - (preceding - days_in_month year (month - 1)) + 1)
    else (year, month, n - preceding + 1).

Definition ymd2ord (y m d : Z) : Z :=
  days_before_year y + days_before_month y m + d.

(** [n] written with at least [width] digits. *)
Definition zero_padded (width : nat) (n : Z) : string :=
  let digits : string := pretty n in
  String.concat "" (replicate (width - String.length digits) "0") +:+ digits.

Record fields : Type := mkFields {
  year : Z; month : Z; day : Z; hour : Z; minute : Z; second : Z; microsecond : Z
}.

Definition fields_of (t : datetime) : fields :=
  let '(y, m, d) := ord2ymd (t `div` US_PER_DAY + 1) in
  let rest := t `mod` US_PER_DAY in
  {| year := y; month := m; day := d;
     hour := rest `div` (3600 * US_PER_SECOND);
     minute := (rest `div` (60 * US_PER_SECOND)) `mod` 60;
     second := (rest `div` US_PER_SECOND) `mod` 60;
     microsecond := rest `mod` US_PER_SECOND |}.

Definition of_fields (f : fields) : option datetime :=
  if (1 <=? year f) && (year f <=? 9999) && (1 <=? month f) && (month f <=? 12)
     && (1 <=? day f) && (day f <=? days_in_month (year f) (month f))
     && (hour f <? 24) && (minute f <? 60) && (second f <? 60)
  then Some ((ymd2ord (year f) (month f) (day f) - 1) * US_PER_DAY
             + ((hour f * 60 + minute f) * 60 + second f) * US_PER_SECOND
             + microsecond f)
  else None.

Definition iso_format (t : datetime) : string :=
  let f := fields_of t in
  zero_padded 4 (year f) +:+ "-" +:+ zero_padded 2 (month f) +:+ "-"
  +:+ zero_padded 2 (day f) +:+ "T" +:+ zero_padded 2 (hour f) +:+ ":"
  +:+ zero_padded 2 (minute f) +:+ ":" +:+ zero_padded 2 (second f)
  +:+ (if microsecond f =? 0 then "" else "." +:+ zero_padded 6 (microsecond f)).

(** Exactly [width] digits at the head of [s]. *)
Fixpoint take_digits (width : nat) (s : string) (acc : Z) : option (Z * string) :=
  match width with
  | O => Some (acc, s)
  | S width =>
      match s with
      | String c rest =>
          if is_digit c then take_digits width rest (10 * acc + digit_of c) else None
      | EmptyString => None
      end
  end.

(** The two shapes [isoformat] writes: [YYYY-MM-DDTHH:MM:SS] and the same
    followed by [.ffffff]. *)
Definition iso_parse (s : string) : option datetime :=
  '(y, s) ← take_digits 4 s 0;
  s ← strip_prefix "-" s;
  '(m, s) ← take_digits 2 s 0;
  s ← strip_prefix "-" s;
  '(d, s) ← take_digits 2 s 0;
  s ← strip_prefix "T" s;
  '(hh, s) ← take_digits 2 s 0;
  s ← strip_prefix ":" s;
  '(mm, s) ← take_digits 2 s 0;
  s ← strip_prefix ":" s;
  '(ss, s) ← take_digits 2 s 0;
  '(us, s) ← match strip_prefix "." s with
             | Some s => take_digits 6 s 0
             | None => Some (0, s)
             end;
  match s with
  | EmptyString =>
      of_fields {| year := y; month := m; day := d; hour := hh; minute := mm;
                   second := ss; microsecond := us |}
  | _ => None
  end.

(** [strftime] for the directives [%Y %m %d %H %M %S]; other characters are
    copied. *)
Definition directive (f : fields) (k : Ascii.ascii) : string :=
  if Ascii.eqb k (ch "Y") then zero_padded 4 (year f)
  else if Ascii.eqb k (ch "m") then zero_padded 2 (month f)
  else if Ascii.eqb k (ch "d") then zero_padded 2 (day f)
  else if Ascii.eqb k (ch "H") then zero_padded 2 (hour f)
  else if Ascii.eqb k (ch "M") then zero_padded 2 (minute f)
  else if Ascii.eqb k (ch "S") then zero_padded 2 (second f)
  else String (ch "%") (String k "").

Fixpoint format_fields (f : fields) (fmt : string) : string :=
  match fmt with
  | String c rest =>
      if Ascii.eqb c (ch "%") then
        match rest with
        | String k rest' => directive f k +:+ format_fields f rest'
        | EmptyString => String c ""
        end
      else String c (format_fields f rest)
  | EmptyString => ""
  end.

#[export] Instance reference_datetime : DateTimeFormat :=
  {| isoformat := iso_format;
     fromisoformat := iso_parse;
     strftime := λ t fmt, format_fields (fields_of t) fmt |}.

(** [datetime(y, m, d, hh, mm, ss)] as a point of the timeline. *)
Definition datetime_of (y m d hh mm ss : Z) : datetime :=
  default 0 (of_fields {| year := y; month := m; day := d; hour := hh;
                          minute := mm; second := ss; microsecond := 0 |}).

(** *** SHA-256 (FIPS 180-4) on 32-bit words held in [N] *)

Definition word_modulus : N := 4294967296.

Definition add32 (a b : N) : N := ((a + b) mod word_modulus)%N.

Definition rotr (k x : N) : N :=
  N.lor (N.shiftr x k) (N.shiftl x (32 - k) mod word_modulus)%N.

Definition not32 (x : N) : N := N.lxor x (word_modulus - 1)%N.

Definition choose (x y z : N) : N := N.lxor (N.land x y) (N.land (not32 x) z).

Definition majority (x y z : N) : N :=
  N.lxor (N.lxor (N.land x y) (N.land x z)) (N.land y z).

Definition big_sigma0 (x : N) : N := N.lxor (N.lxor (rotr 2 x) (rotr 13 x)) (rotr 22 x).
Definition big_sigma1 (x : N) : N := N.lxor (N.lxor (rotr 6 x) (rotr 11 x)) (rotr 25 x).
Definition small_sigma0 (x : N) : N := N.lxor (N.lxor (rotr 7 x) (rotr 18 x)) (N.shiftr x 3).
Definition small_sigma1 (x : N) : N := N.lxor (N.lxor (rotr 17 x) (rotr 19 x)) (N.shiftr x 10).

(** The constants are defined as the standard defines them: the first 32
    bits of the fractional parts of the cube roots (round constants) and
    of the square roots (initial hash) of the first primes. *)
Definition is_prime (n : N) : bool :=
  (1 <? n)%N
  && forallb (λ d, negb (n mod N.of_nat d =? 0)%N) (seq 2 (N.to_nat n - 2)).

Definition first_primes (k : nat) : list N :=
  take k (filter (λ n, is_prime n = true) (map N.of_nat (seq 2 400))).

(** The largest [r] below [2 ^ bits] with [r ^ 3 <= n], found bit by bit
    from the top, on top of [found]. *)
Fixpoint cube_root (bits : nat) (n found : N) : N :=
  match bits with
  | O => found
  | S bits =>
      let candidate := (found + 2 ^ N.of_nat bits)%N in
      if (candidate ^ 3 <=? n)%N then cube_root bits n candidate
      else cube_root bits n found
  end.

Definition round_constants : list N :=
  Eval vm_compute in
    map (λ p, cube_root 40 (p * 2 ^ 96) 0 mod word_modulus)%N (first_primes 64).

Definition initial_hash : list N :=
  Eval vm_compute in
    map (λ p, N.sqrt (p * 2 ^ 64) mod word_modulus)%N (first_primes 8).

(** [n] as [width] bytes, most significant first. *)
Fixpoint big_endian (width : nat) (n : N) : list N :=
  match width with
  | O => []
  | S width => ((n / 256 ^ N.of_nat width) mod 256)%N :: big_endian width n
  end.

(** The message followed by the bit 1, zeros, and its length in bits. *)
Definition padded (message : list N) : list N :=
  let l := length message in
  let zeros := ((119 - l mod 64) mod 64)%nat in
  message ++ [128%N] ++ replicate zeros 0%N ++ big_endian 8 (8 * N.of_nat l).

Fixpoint words_of (fuel : nat) (l : list N) : list N :=
  match fuel, l with
  | S fuel, a :: b :: c :: d :: rest =>
      (((a * 256 + b) * 256 + c) * 256 + d)%N :: words_of fuel rest
  | _, _ => []
  end.

(** The message schedule, latest word first, after [n] more words. *)
Fixpoint schedule (n : nat) (recent : list N) : list N :=
  match n with
  | O => recent
  | S n =>
      let w i := nth i recent 0%N in
      schedule n
        (add32 (add32 (small_sigma1 (w 1%nat)) (w 6%nat))
               (add32 (small_sigma0 (w 14%nat)) (w 15%nat)) :: recent)
  end.

Definition compress_round (state : list N) (kw : N * N) : list N :=
  match state with
  | [a; b; c; d; e; f; g; h] =>
      let t1 := add32 (add32 (add32 h (big_sigma1 e)) (choose e f g))
                      (add32 kw.1 kw.2) in
      let t2 := add32 (big_sigma0 a) (majority a b c) in
      [add32 t1 t2; a; b; c; add32 d t1; e; f; g]
  | _ => state
  end.

Definition compress (hash block : list N) : list N :=
  let w := rev (schedule 48 (rev block)) in
  let final := foldl compress_round hash (zip round_constants w) in
  zip_with add32 hash final.

Fixpoint compress_blocks (fuel : nat) (hash words : list N) : list N :=
  match fuel, words with
  | S fuel, _ :: _ => compress_blocks fuel (compress hash (take 16 words)) (drop 16 words)
  | _, _ => hash
  end.

Definition sha256_digest (data : bytes) : bytes :=
  let message := padded (map Byte.to_N data) in
  let words := words_of (length message) message in
  let hash := compress_blocks (length words) initial_hash words in
  map byte_of_N (concat (map (big_endian 4) hash)).

#[export] Instance reference_hashlib : Hashlib := {| sha256 := sha256_digest |}.

(** A random source for running the model: byte [i] is [7 i + 3] modulo
    256. *)
Definition counting_source : nat → Byte.byte :=
  λ i, byte_of_N ((7 * N.of_nat i + 3) mod 256)%N.

End Reference.

(** ** Concrete clients, services and stores

    The inputs the properties below are run on; they follow the
    repository's own tests. *)

Module Examples.
Import Py Reference.

Module Graph.
Import Graph_client.

Definition client : GraphClient := __init__ "mock_access_token_12345".

Definition ok_response : Response :=
  {| status_code := 200; text := "";
     resp_headers := ∅;
     response_json := Some (JDict (<["id" := JStr "test_id"]> ∅)) |}.

Definition accepted_response : Response :=
  {| status_code := 202; text := ""; resp_headers := ∅;
     response_json := Some (JDict ∅) |}.

Definition server_error : Response :=
  {| status_code := 500; text := "Server error"; resp_headers := ∅;
     response_json := None |}.

Definition rate_limited : Response :=
  {| status_code := 429; text := "Rate limit exceeded"; resp_headers := ∅;
     response_json := None |}.

(** A 429 whose [Retry-After] is an HTTP date, the header's other legal
    form. *)
Definition rate_limited_until_date : Response :=
  {| status_code := 429; text := "Rate limit exceeded";
     resp_headers := <["Retry-After" := "Wed, 21 Oct 2015 07:28:00 GMT"]> ∅;
     response_json := None |}.

(** A service that fails twice and then answers. *)
Definition flaky : nat → Request → reply :=
  λ n _, if (n <? 2)%nat then Responded server_error else Responded ok_response.

Definition always (r : Response) : nat → Request → reply := λ _ _, Responded r.

(** A client that has not issued anything yet. *)
Definition fresh (service : nat → Request → reply) : World :=
  {| network := service; sent := []; slept := [] |}.

Definition read_request : Request :=
  issued_request client "GET" "/me/messages/test_id" None None.

(** The 404 of the tests, with the provider's structured error. *)
Definition not_found : Response :=
  {| status_code := 404; text := "Not found"; resp_headers := ∅;
     response_json := Some (JDict (<["error" :=
       JDict (<["message" := JStr "Resource not found"]> ∅)]> ∅)) |}.

(** A 202 with no content, as [sendMail] answers. *)
Definition accepted_empty : Response :=
  {| status_code := 202; text := ""; resp_headers := ∅; response_json := None |}.

Definition no_content : Response :=
  {| status_code := 204; text := ""; resp_headers := ∅; response_json := None |}.

(** A service that times out once, fails once and then answers. *)
Definition recovering : nat → Request → reply :=
  λ n _, match n with
         | 0%nat => Failed TimeoutException "Timeout"
         | 1%nat => Responded server_error
         | _ => Responded ok_response
         end.

(** A service that answers 500 three times and then stops answering. *)
Definition going_dark : nat → Request → reply :=
  λ n _, if (n <? 3)%nat then Responded server_error
         else Failed NetworkError "Connection refused".

Definition unreachable : nat → Request → reply :=
  λ _ _, Failed OtherTransportError "Unsupported protocol".

(** A service that returns a list of two messages under "value". *)
Definition two_messages : Response :=
  {| status_code := 200; text := ""; resp_headers := ∅;
     response_json := Some (JDict (<["value" :=
       JList [JDict (<["id" := JStr "msg1"]> ∅);
              JDict (<["id" := JStr "msg2"]> ∅)]]> ∅)) |}.

End Graph.

Module Store.
Import Token_storage.

Definition user_tokens : gmap string json :=
  <["access_token" := JStr "access_token_xyz"]>
  (<["refresh_token" := JStr "refresh_token_abc"]>
  (<["expires_in" := JInt 3600]>
  (<["scope" := JStr "User.Read Mail.Read"]>
  (<["token_type" := JStr "Bearer"]> ∅)))).

Definition noon : datetime := datetime_of 2024 1 1 12 0 0.

(** A new store, a caller holding [user_tokens] as object 1, the clock at
    noon of 2024-01-01. *)
Definition start : World :=
  {| storage := __init__;
     heap := <[1%positive := user_tokens]> ∅;
     clock := noon;
     entropy := [Byte.x2a; Byte.x07] |}.

(** A store whose entry for "user123" is not a token of the cipher. *)
Definition garbled : World :=
  {| storage := {| _tokens := <["user123" := encode "not a token at all"]> ∅;
                   _verifiers := ∅ |};
     heap := ∅; clock := noon; entropy := [] |}.

(** The same store with the caller holding [T] as object 1. *)
Definition holding (T : gmap string json) : World :=
  {| storage := __init__;
     heap := <[1%positive := T]> ∅;
     clock := noon;
     entropy := [Byte.x2a; Byte.x07] |}.

(** A token response without a lifetime. *)
Definition tokens_without_lifetime : gmap string json :=
  <["access_token" := JStr "access_token_xyz"]>
  (<["token_type" := JStr "Bearer"]> ∅).

(** A token response whose lifetime is a string, as some token endpoints
    send it. *)
Definition tokens_with_text_lifetime : gmap string json :=
  <["access_token" := JStr "access_token_xyz"]>
  (<["expires_in" := JStr "3600"]> ∅).

(** A token response without an access token. *)
Definition tokens_without_access : gmap string json :=
  <["refresh_token" := JStr "refresh_token_abc"]>
  (<["expires_in" := JInt 3600]> ∅).

End Store.

Module Codes.
Import Pkce.

(** A random source nothing has been drawn from yet. *)
Definition unused : World := {| random := counting_source; drawn := 0 |}.

End Codes.

End Examples.

(** ** Properties of the Graph request executor and the operations on it *)

Module Graph_client_spec.
Import Py Graph_client.
#[local] Open Scope py_scope.

Section Executor.
Context `{Repr}.
Variables (self : GraphClient) (method endpoint : string)
  (data : option json) (params : option (gmap string json)).

Abbreviation request := (issued_request self method endpoint data params).
Abbreviation call := (_make_request self method endpoint data params).

Ltac unfold_attempt :=
  rewrite _make_request_equation_1;
  unfold try_except, bind, client_request, retry_after_of, sleep, modify, raise, ret, lift;
  cbn zeta; fold request.

Lemma after_attempts_compose w n1 d1 n2 d2 :
  after_attempts (after_attempts w request n1 d1) request n2 d2
  = after_attempts w request (n1 + n2) (d1 ++ d2).
Proof.
  unfold after_attempts; simpl. by rewrite replicate_add, !app_assoc.
Qed.

(** The executor converts every timeout and network error it meets, so
    none leaves a call. *)
Lemma call_raises_no_transport_error rc w e :
  (call rc w).1 = Raise e → is_timeout_or_network e = false.
Proof.
  remember (MAX_RETRIES - rc)%nat as k eqn:Hk.
  revert rc w e Hk.
  induction k as [k IH] using lt_wf_ind. intros rc w e Hk.
  assert (Hrec : ∀ w' e', (rc < MAX_RETRIES)%nat →
            (call (rc + 1) w').1 = Raise e' → is_timeout_or_network e' = false).
  { intros w' e' Hlt. apply (IH (MAX_RETRIES - (rc + 1))%nat); [lia | done]. }
  clear IH. unfold_attempt.
  destruct (network w _ _) as [response|cls msg].
  - destruct (status_code response =? 401); [by intros [= <-]|].
    destruct (status_code response =? 429).
    { destruct (resp_headers response !! "Retry-After") as [s|]; [|by intros [= <-]].
      destruct (py_int s); simpl; by intros [= <-]. }
    destruct (500 <=? status_code response).
    { destruct (decide (rc < MAX_RETRIES)%nat) as [Hlt|]; [|by intros [= <-]].
      destruct (call (rc + 1) _) as [[v|e'] w'] eqn:Hcall; [done|].
      pose proof (Hrec _ e' Hlt (f_equal fst Hcall)) as He'.
      rewrite He'. by intros [= <-]. }
    destruct (400 <=? status_code response); [by intros [= <-]|].
    destruct (status_code response =? 204); [done|].
    destruct (response_json response); simpl; [done|by intros [= <-]].
  - destruct (is_timeout_or_network (Transport cls msg)) eqn:Hcls; [|by intros [= <-]].
    destruct (decide (rc < MAX_RETRIES)%nat) as [Hlt|]; [|by intros [= <-]].
    apply Hrec, Hlt.
Qed.

(** A server error with retries left: sleep, then go on as the next
    attempt does. *)
Lemma call_server_error rc w response :
  network w (length (sent w)) request = Responded response →
  500 ≤ status_code response →
  (rc < MAX_RETRIES)%nat →
  call rc w = call (rc + 1) (after_attempts w request 1 (backoff_delays rc 1)).
Proof.
  intros Hnet Hstatus Hlt. unfold_attempt. rewrite Hnet.
  replace (status_code response =? 401) with false by lia.
  replace (status_code response =? 429) with false by lia.
  replace (500 <=? status_code response) with true by lia.
  destruct (decide (rc < MAX_RETRIES)%nat); [|done].
  unfold after_attempts, backoff_delays; simpl.
  destruct (call (rc + 1) _) as [[v|e] w'] eqn:Hcall; [done|].
  by rewrite (call_raises_no_transport_error _ _ _ (f_equal fst Hcall)).
Qed.

Lemma call_server_error_exhausted rc w response :
  network w (length (sent w)) request = Responded response →
  500 ≤ status_code response →
  (MAX_RETRIES ≤ rc)%nat →
  call rc w = (Raise (GraphAPIError ("Server error after 3 retries: " +:+ text response)),
               after_attempts w request 1 []).
Proof.
  intros Hnet Hstatus Hlt. unfold_attempt. rewrite Hnet.
  replace (status_code response =? 401) with false by lia.
  replace (status_code response =? 429) with false by lia.
  replace (500 <=? status_code response) with true by lia.
  destruct (decide (rc < MAX_RETRIES)%nat); [lia|].
  unfold after_attempts; simpl. by rewrite app_nil_r.
Qed.

Lemma call_success rc w response v :
  network w (length (sent w)) request = Responded response →
  status_code response < 400 →
  success_result response = Some v →
  call rc w = (Return v, after_attempts w request 1 []).
Proof.
  intros Hnet Hstatus Hv. unfold_attempt. rewrite Hnet.
  replace (status_code response =? 401) with false by lia.
  replace (status_code response =? 429) with false by lia.
  replace (500 <=? status_code response) with false by lia.
  replace (400 <=? status_code response) with false by lia.
  unfold success_result in Hv. unfold after_attempts; simpl. rewrite app_nil_r.
  destruct (status_code response =? 204); simplify_eq/=; [done|]. by rewrite Hv.
Qed.

(** A 401 ends the call at once. *)
Lemma call_unauthorized rc w response :
  network w (length (sent w)) request = Responded response →
  status_code response = 401 →
  call rc w = (Raise (TokenExpiredError "Access token expired or invalid"),
               after_attempts w request 1 []).
Proof.
  intros Hnet Hstatus. unfold_attempt. rewrite Hnet, Hstatus. simpl.
  unfold after_attempts; simpl. by rewrite app_nil_r.
Qed.

(** A 429 whose [Retry-After] header holds an integer ends the call at once
    with that number in the message. *)
Lemma call_rate_limited rc w response s n :
  network w (length (sent w)) request = Responded response →
  status_code response = 429 →
  resp_headers response !! "Retry-After" = Some s →
  py_int s = Some n →
  call rc w = (Raise (RateLimitError ("Rate limit exceeded. Retry after "
                                      +:+ pretty n +:+ " seconds")),
               after_attempts w request 1 []).
Proof.
  intros Hnet Hstatus Hs Hn. unfold_attempt. rewrite Hnet, Hstatus, Hs, Hn. simpl.
  unfold after_attempts; simpl. by rewrite app_nil_r.
Qed.

(** A 429 whose [Retry-After] header is not an integer: the conversion
    fails inside the [try], no [except] clause matches, and the
    [ValueError] leaves the call. *)
Lemma call_rate_limited_bad_header rc w response s :
  network w (length (sent w)) request = Responded response →
  status_code response = 429 →
  resp_headers response !! "Retry-After" = Some s →
  py_int s = None →
  call rc w = (Raise (Builtin PyValueError), after_attempts w request 1 []).
Proof.
  intros Hnet Hstatus Hs Hn. unfold_attempt. rewrite Hnet, Hstatus, Hs, Hn. simpl.
  unfold after_attempts; simpl. by rewrite app_nil_r.
Qed.

Lemma call_after_server_errors N : ∀ rc w,
  (rc + N ≤ MAX_RETRIES)%nat →
  (∀ i, (i < N)%nat → ∃ ri,
     network w (length (sent w) + i)%nat request = Responded ri ∧ 500 ≤ status_code ri) →
  call rc w = call (rc + N) (after_attempts w request N (backoff_delays rc N)).
Proof.
  induction N as [|N IH]; intros rc w Hle Herr.
  - rewrite Nat.add_0_r. unfold backoff_delays; simpl.
    destruct w; unfold after_attempts; simpl. by rewrite !app_nil_r.
  - destruct (Herr 0%nat) as (r0 & Hr0 & Hs0); [lia|].
    rewrite Nat.add_0_r in Hr0.
    rewrite (call_server_error rc w r0 Hr0 Hs0) by lia.
    rewrite IH.
    + rewrite after_attempts_compose.
      replace (rc + 1 + N)%nat with (rc + S N)%nat by lia.
      by replace (rc + 1)%nat with (S rc) by lia.
    + lia.
    + intros i Hi. destruct (Herr (S i)) as (ri & Hri & Hsi); [lia|].
      exists ri. split; [|done]. simpl. rewrite length_app. simpl.
      by replace (length (sent w) + 1 + i)%nat with (length (sent w) + S i)%nat by lia.
Qed.

Lemma backoff_delays_from_0 N :
  (N ≤ MAX_RETRIES)%nat → backoff_delays 0 N = take N [1; 2; 4].
Proof.
  unfold MAX_RETRIES. intros HN.
  destruct N as [|[|[|[|N]]]]; try lia; reflexivity.
Qed.

(** The first attempt of a call either ends it or, with retries left,
    sleeps and hands over to the next attempt. *)
Lemma call_first_attempt rc w :
  (∃ o, call rc w = (o, after_attempts w request 1 []))
  ∨ ((rc < MAX_RETRIES)%nat
     ∧ call rc w = call (rc + 1) (after_attempts w request 1 (backoff_delays rc 1))).
Proof.
  unfold_attempt. unfold after_attempts, backoff_delays. simpl. rewrite app_nil_r.
  destruct (network w _ _) as [response|cls msg].
  - destruct (status_code response =? 401); [left; eauto|].
    destruct (status_code response =? 429).
    { destruct (resp_headers response !! "Retry-After") as [s|]; [|left; eauto].
      destruct (py_int s); simpl; left; eauto. }
    destruct (500 <=? status_code response).
    { destruct (decide (rc < MAX_RETRIES)%nat) as [Hlt|]; [|left; eauto].
      right. split; [done|].
      destruct (call (rc + 1) _) as [[v|e] w'] eqn:Hcall; [done|].
      by rewrite (call_raises_no_transport_error _ _ _ (f_equal fst Hcall)). }
    destruct (400 <=? status_code response); [left; eauto|].
    destruct (status_code response =? 204); [left; eauto|].
    destruct (response_json response); simpl; left; eauto.
  - destruct (is_timeout_or_network (Transport cls msg)); [|left; eauto].
    destruct (decide (rc < MAX_RETRIES)%nat) as [Hlt|]; [|left; eauto].
    right. done.
Qed.

(** Whatever the service answers, a call issues its one request at least
    once and at most [MAX_RETRIES + 1] times, and nothing else. *)
Lemma call_issues_one_request rc w :
  ∃ n delays, (1 ≤ n ≤ S (MAX_RETRIES - rc))%nat
              ∧ (call rc w).2 = after_attempts w request n delays.
Proof.
  remember (MAX_RETRIES - rc)%nat as k eqn:Hk.
  revert rc w Hk.
  induction k as [k IH] using lt_wf_ind. intros rc w Hk.
  destruct (call_first_attempt rc w) as [[o Ho]|[Hlt Hnext]].
  - exists 1%nat, []. rewrite Ho. split; [lia|done].
  - destruct (IH (MAX_RETRIES - (rc + 1))%nat ltac:(lia) (rc + 1)%nat
                (after_attempts w request 1 (backoff_delays rc 1)) eq_refl)
      as (n & delays & Hn & Hw).
    exists (1 + n)%nat, (backoff_delays rc 1 ++ delays).
    rewrite Hnext, Hw, after_attempts_compose. split; [lia|done].
Qed.

(** C1.  Retry with backoff.  If the first [N] answers are server errors
    (status 500 or more), [N] below [MAX_RETRIES], and the next answer is a
    success whose result is [v], the call returns [v] after [N + 1]
    attempts, having slept 1, 2, 4, ... between them.  If every answer is a
    server error, the call makes exactly [MAX_RETRIES + 1 = 4] attempts,
    sleeping 1, 2 and 4, and then raises the "Server error after 3 retries"
    failure. *)
Theorem make_request_retries_server_errors w :
  let answer i := network w (length (sent w) + i)%nat request in
  (∀ N response v,
     (N < MAX_RETRIES)%nat →
     (∀ i, (i < N)%nat → ∃ ri, answer i = Responded ri ∧ 500 ≤ status_code ri) →
     answer N = Responded response →
     200 ≤ status_code response < 300 →
     success_result response = Some v →
     call 0 w = (Return v, after_attempts w request (N + 1) (take N [1; 2; 4])))
  ∧ ((∀ i, ∃ ri, answer i = Responded ri ∧ 500 ≤ status_code ri) →
     ∃ response,
       answer MAX_RETRIES = Responded response
       ∧ call 0 w = (Raise (GraphAPIError ("Server error after 3 retries: "
                                           +:+ text response)),
                     after_attempts w request (MAX_RETRIES + 1) [1; 2; 4])).
Proof.
  intros answer. split.
  - intros N response v HN Herr Hok Hstatus Hv.
    rewrite (call_after_server_errors N 0 w) by (done || lia). simpl.
    rewrite (call_success _ _ response v).
    + rewrite after_attempts_compose, app_nil_r. by rewrite backoff_delays_from_0 by lia.
    + simpl. rewrite length_app, length_replicate. done.
    + lia.
    + done.
  - intros Herr. destruct (Herr MAX_RETRIES) as (response & Hr & Hs).
    exists response. split; [done|].
    rewrite (call_after_server_errors MAX_RETRIES 0 w) by (lia || intros; apply Herr).
    simpl.
    rewrite (call_server_error_exhausted _ _ response).
    + by rewrite after_attempts_compose.
    + simpl. rewrite length_app. exact Hr.
    + done.
    + simpl. lia.
Qed.

(** C10.  A 429 answer without a [Retry-After] header ends the call with a
    [RateLimitError] that reports 60 seconds. *)
Theorem rate_limit_default_retry_after rc w response :
  network w (length (sent w)) request = Responded response →
  status_code response = 429 →
  resp_headers response !! "Retry-After" = None →
  call rc w = (Raise (RateLimitError "Rate limit exceeded. Retry after 60 seconds"),
               after_attempts w request 1 []).
Proof.
  intros Hnet Hstatus Hs. unfold_attempt. rewrite Hnet, Hstatus, Hs. simpl.
  unfold after_attempts; simpl. by rewrite app_nil_r.
Qed.

End Executor.

Section Operations.
Context `{Repr} `{DateTimeFormat}.
Variable self : GraphClient.

(** C7.  [send_email].  With a draft identifier the call is one executor
    operation, a POST to that draft's send endpoint with no body, whatever
    the other arguments are.  Without one, a missing [to], [subject] or
    [body] raises the validation error and leaves the world untouched (no
    request is issued).  With all three, the call is one executor
    operation, a POST to [/me/sendMail] whose body holds the message under
    the key "message"; answered by a success, that is a single request.
    An argument counts as supplied when Python's truth test accepts it:
    [None] and the empty string or list do not. *)
Theorem send_email_contract draft_id to subject body cc importance body_type w :
  (∀ d, present_str draft_id = Some d →
     let endpoint := "/me/messages/" +:+ d +:+ "/send" in
     send_email self draft_id to subject body cc importance body_type w
     = (_make_request self "POST" endpoint None None 0 ;;; ret tt) w
     ∧ (∃ n delays, (1 ≤ n ≤ MAX_RETRIES + 1)%nat
          ∧ (send_email self draft_id to subject body cc importance body_type w).2
            = after_attempts w (issued_request self "POST" endpoint None None) n delays)
     ∧ (∀ to' subject' body' cc' importance' body_type',
          send_email self draft_id to' subject' body' cc' importance' body_type' w
          = send_email self draft_id to subject body cc importance body_type w))
  ∧ (present_str draft_id = None →
     present_list to = None ∨ present_str subject = None ∨ present_str body = None →
     send_email self draft_id to subject body cc importance body_type w
     = (Raise (ValueError
          "to, subject, and body are required when draft_id is not provided"), w))
  ∧ (present_str draft_id = None →
     ∀ t s b,
       present_list to = Some t → present_str subject = Some s →
       present_str body = Some b →
       let message := build_message t s b cc importance body_type in
       let payload := JDict (<["message" := JDict message]> ∅) in
       let request := issued_request self "POST" "/me/sendMail" (Some payload) None in
       send_email self draft_id to subject body cc importance body_type w
       = (_make_request self "POST" "/me/sendMail" (Some payload) None 0 ;;; ret tt) w
       ∧ (∃ n delays, (1 ≤ n ≤ MAX_RETRIES + 1)%nat
            ∧ (send_email self draft_id to subject body cc importance body_type w).2
              = after_attempts w request n delays)
       ∧ (∀ response v,
            network w (length (sent w)) request = Responded response →
            200 ≤ status_code response < 300 →
            success_result response = Some v →
            send_email self draft_id to subject body cc importance body_type w
            = (Return tt, after_attempts w request 1 []))).
Proof.
  split; [|split].
  - intros d Hd endpoint. unfold send_email. rewrite Hd. fold endpoint.
    split; [done|]. split; [|done].
    destruct (call_issues_one_request self "POST" endpoint None None 0 w)
      as (n & delays & Hn & Hw).
    exists n, delays. split; [unfold MAX_RETRIES in *; lia|].
    unfold bind. destruct (_make_request _ _ _ _ _ _ _) as [[v|e] w']; done.
  - intros Hd Hmissing. unfold send_email. rewrite Hd.
    destruct Hmissing as [-> | [-> | ->]]; [done| |].
    + by destruct (present_list to).
    + by destruct (present_list to), (present_str subject).
  - intros Hd t s b Ht Hs Hb message payload request.
    unfold send_email. rewrite Hd, Ht, Hs, Hb. fold message payload.
    split; [done|]. split.
    + destruct (call_issues_one_request self "POST" "/me/sendMail" (Some payload) None 0 w)
        as (n & delays & Hn & Hw).
      exists n, delays. split; [unfold MAX_RETRIES in *; lia|].
      unfold bind. destruct (_make_request _ _ _ _ _ _ _) as [[v|e] w']; done.
    + intros response v Hnet Hstatus Hv. unfold bind.
      by rewrite (call_success self "POST" "/me/sendMail" (Some payload) None 0 w response v)
        by (done || lia).
Qed.

(** C8.  [search_emails] issues one executor operation, a GET on the
    folder's messages, whose query parameters are: [$top], the smaller of
    the requested count and 1000; [$orderby], received time descending;
    [$filter], present exactly when a from-date is given, the lower bound
    on the received time written with the format
    [%Y-%m-%dT%H:%M:%SZ]; [$search], present exactly when a query is
    supplied, the query between double quotes. *)
Theorem search_emails_request query folder top from_date w :
  ∃ params n delays,
    params !! "$top" = Some (JInt (Z.min top 1000))
    ∧ params !! "$orderby" = Some (JStr "receivedDateTime DESC")
    ∧ params !! "$filter"
      = (λ d, JStr ("receivedDateTime ge " +:+ strftime d "%Y-%m-%dT%H:%M:%SZ"))
        <$> from_date
    ∧ params !! "$search"
      = (λ q, JStr (dquote +:+ q +:+ dquote)) <$> present_str query
    ∧ (1 ≤ n ≤ MAX_RETRIES + 1)%nat
    ∧ (search_emails self query folder top from_date w).2
      = after_attempts w
          (issued_request self "GET" ("/me/mailFolders/" +:+ folder +:+ "/messages")
             None (Some params)) n delays.
Proof.
  unfold search_emails.
  match goal with
  | |- context [_make_request self "GET" _ None (Some ?p) 0] => set (params := p)
  end.
  destruct (call_issues_one_request self "GET"
              ("/me/mailFolders/" +:+ folder +:+ "/messages") None (Some params) 0 w)
    as (n & delays & Hn & Hw).
  exists params, n, delays.
  assert (Hparams : params !! "$top" = Some (JInt (Z.min top 1000))
    ∧ params !! "$orderby" = Some (JStr "receivedDateTime DESC")
    ∧ params !! "$filter"
      = (λ d, JStr ("receivedDateTime ge " +:+ strftime d "%Y-%m-%dT%H:%M:%SZ"))
        <$> from_date
    ∧ params !! "$search"
      = (λ q, JStr (dquote +:+ q +:+ dquote)) <$> present_str query).
  { subst params.
    destruct from_date as [d|], (present_str query) as [q|]; simpl;
      repeat split; by simplify_map_eq. }
  destruct Hparams as (? & ? & ? & ?). do 4 (split; [done|]).
  split; [unfold MAX_RETRIES in *; lia|].
  rewrite <- Hw. unfold bind, dict_get, py_len, ret, raise.
  destruct (_make_request _ _ _ _ _ _ _) as [[v|e] w']; [|done].
  destruct v as [| | | | |d]; try done.
  by destruct (default (JList []) (d !! "value")).
Qed.

End Operations.

Import Reference Examples.Graph.

(** The flaky service of the tests: two 500s, then the body, after sleeps
    of 1 and 2; and a service that only fails: four attempts, sleeps of 1,
    2 and 4, then the failure. *)
Lemma make_request_retries_server_errors_witness :
  _make_request client "GET" "/me/messages/test_id" None None 0 (fresh flaky)
  = (Return (JDict (<["id" := JStr "test_id"]> ∅)),
     after_attempts (fresh flaky) read_request 3 [1; 2])
  ∧ _make_request client "GET" "/me/messages/test_id" None None 0
      (fresh (always server_error))
    = (Raise (GraphAPIError "Server error after 3 retries: Server error"),
       after_attempts (fresh (always server_error)) read_request 4 [1; 2; 4]).
Proof.
  split.
  - apply (proj1 (make_request_retries_server_errors
                    client "GET" "/me/messages/test_id" None None (fresh flaky))
             2%nat ok_response).
    + unfold MAX_RETRIES. lia.
    + intros i Hi. exists server_error.
      destruct i as [|[|i]]; [split; [reflexivity | simpl; lia].. | lia].
    + reflexivity.
    + simpl. lia.
    + reflexivity.
  - destruct (proj2 (make_request_retries_server_errors
                       client "GET" "/me/messages/test_id" None None
                       (fresh (always server_error))))
      as (response & Hresponse & Hcall).
    + intros i. exists server_error. split; [reflexivity | simpl; lia].
    + injection Hresponse as <-. exact Hcall.
Defined.

(** A 429 without the header: one attempt, no sleep, 60 seconds reported. *)
Lemma rate_limit_default_retry_after_witness :
  _make_request client "GET" "/me/messages/test_id" None None 0
    (fresh (always rate_limited))
  = (Raise (RateLimitError "Rate limit exceeded. Retry after 60 seconds"),
     after_attempts (fresh (always rate_limited)) read_request 1 []).
Proof.
  apply (rate_limit_default_retry_after client "GET" "/me/messages/test_id"
           None None 0%nat (fresh (always rate_limited)) rate_limited);
    reflexivity.
Defined.

(** C2.  The executor on a 429 whose [Retry-After] header is an HTTP date:
    one attempt and no sleep, as the claim says, but the failure that
    leaves the call is the [ValueError] of [int(...)], which is neither a
    [RateLimitError] nor any other [GraphAPIError]. *)
Theorem rate_limit_with_http_date_raises_value_error :
  py_int "Wed, 21 Oct 2015 07:28:00 GMT" = None
  ∧ _make_request client "GET" "/me/messages/test_id" None None 0
      (fresh (always rate_limited_until_date))
    = (Raise (Builtin PyValueError),
       after_attempts (fresh (always rate_limited_until_date)) read_request 1 [])
  ∧ is_GraphAPIError (Builtin PyValueError) = false.
Proof.
  split; [reflexivity|]. split; [|reflexivity].
  by apply (call_rate_limited_bad_header client "GET" "/me/messages/test_id"
              None None 0%nat _ rate_limited_until_date
              "Wed, 21 Oct 2015 07:28:00 GMT").
Qed.

(** The three cases of [send_email] on the inputs of the tests: only [to]
    given, a draft identifier, and a new message answered by a 202. *)
Lemma send_email_contract_witness :
  let w := fresh (always accepted_response) in
  send_email client None (Some ["test@example.com"]) None None None NORMAL "HTML" w
  = (Raise (ValueError
       "to, subject, and body are required when draft_id is not provided"), w)
  ∧ send_email client (Some "AAMkAGI2THVSAAA=") (Some ["other@example.com"])
      (Some "ignored") None None HIGH "Text" w
    = (Return tt,
       after_attempts w
         (issued_request client "POST" "/me/messages/AAMkAGI2THVSAAA=/send"
            None None) 1 [])
  ∧ send_email client None (Some ["test@example.com"]) (Some "Test") (Some "Body")
      None NORMAL "HTML" w
    = (Return tt,
       after_attempts w
         (issued_request client "POST" "/me/sendMail"
            (Some (JDict (<["message" :=
               JDict (build_message ["test@example.com"] "Test" "Body" None
                        NORMAL "HTML")]> ∅))) None) 1 []).
Proof.
  intros w. split; [|split].
  - apply (proj1 (proj2 (send_email_contract client None (Some ["test@example.com"])
                           None None None NORMAL "HTML" w)));
      [reflexivity | right; left; reflexivity].
  - destruct (proj1 (send_email_contract client (Some "AAMkAGI2THVSAAA=")
                       (Some ["other@example.com"]) (Some "ignored") None None
                       HIGH "Text" w) "AAMkAGI2THVSAAA=" eq_refl) as (Hsend & _ & _).
    rewrite Hsend. unfold bind.
    by rewrite (call_success client "POST" "/me/messages/AAMkAGI2THVSAAA=/send"
                  None None 0 w accepted_response (JDict ∅)).
  - destruct (proj2 (proj2 (send_email_contract client None (Some ["test@example.com"])
                              (Some "Test") (Some "Body") None NORMAL "HTML" w))
                eq_refl ["test@example.com"] "Test" "Body" eq_refl eq_refl eq_refl)
      as (_ & _ & Hsingle).
    apply (Hsingle accepted_response (JDict ∅)); [reflexivity | simpl; lia | reflexivity].
Defined.

(** [search_emails(query="budget report", top=5000, from_date=2024-01-01)]
    answered at once: the one request it sends. *)
Example search_emails_top_5000 :
  sent (search_emails client (Some "budget report") "inbox" 5000
          (Some (datetime_of 2024 1 1 0 0 0)) (fresh (always ok_response))).2
  = [ {| method := "GET";
         url := "https://graph.microsoft.com/v1.0/me/mailFolders/inbox/messages";
         req_headers := headers client;
         req_json := None;
         req_params := Some (
           <["$top" := JInt 1000]>
           (<["$orderby" := JStr "receivedDateTime DESC"]>
           (<["$filter" := JStr "receivedDateTime ge 2024-01-01T00:00:00Z"]>
           (<["$search" := JStr (dquote +:+ "budget report" +:+ dquote)]> ∅)))) |} ].
Proof. vm_compute. reflexivity. Qed.

End Graph_client_spec.

(** ** Properties of the credential store *)

Module Token_storage_spec.
Import Py Token_storage.
#[local] Open Scope py_scope.

Section Store.
Context `{Fernet} `{JsonCodec} `{TextCodec} `{DateTimeFormat}.

(** The record [store_tokens] seals: the caller's fields with the stamp. *)
Abbreviation stamped T t := (<["stored_at" := JStr (isoformat t)]> T).

(** The ciphertext [store_tokens] writes for [T] in the world [w]. *)
Abbreviation sealed T w :=
  (encrypt (entropy w) (clock w) (encode (dumps (JDict (stamped T (clock w)))))).

Lemma store_tokens_run user_id tokens T w :
  heap w !! tokens = Some T →
  store_tokens user_id tokens w
  = (Return tt,
     with_tokens (<[user_id := sealed T w]>)
       (with_heap (<[tokens := stamped T (clock w)]>) w)).
Proof.
  intros HT. unfold store_tokens, bind, utcnow, gets, setitem, deref, modify.
  rewrite HT. simpl. by rewrite lookup_insert_eq.
Qed.

Lemma get_tokens_absent user_id w :
  truthy_bytes (_tokens (storage w) !! user_id) = false →
  get_tokens user_id w = (Return JNull, w).
Proof.
  intros Hno. unfold get_tokens, bind, gets. by rewrite Hno.
Qed.

Lemma get_tokens_stored user_id c w :
  _tokens (storage w) !! user_id = Some c →
  truthy_bytes (Some c) = true →
  get_tokens user_id w
  = match unseal c with
    | Some v => (Return v, w)
    | None => (Return JNull, with_tokens (delete user_id) w)
    end.
Proof.
  intros Hc Hne. unfold get_tokens, bind, gets, try_except, unseal, lift, ret, raise, modify.
  rewrite Hc, Hne. simpl.
  destruct (decrypt c) as [decrypted|]; simpl; [|done].
  destruct (decode decrypted) as [text|]; simpl; [|done].
  by destruct (loads text).
Qed.

Lemma unseal_sealed iv time v :
  round_trips iv time v → unseal (encrypt iv time (encode (dumps v))) = Some v.
Proof.
  intros (_ & Hdecrypt & Hdecode & Hloads). unfold unseal.
  rewrite Hdecrypt. simpl. rewrite Hdecode. simpl. done.
Qed.

(** Reading back what [store_tokens] wrote, at any later moment. *)
Lemma get_tokens_after_store user_id tokens T w t' iv' :
  heap w !! tokens = Some T →
  round_trips (entropy w) (clock w) (JDict (stamped T (clock w))) →
  let w1 := later t' iv' (store_tokens user_id tokens w).2 in
  get_tokens user_id w1 = (Return (JDict (stamped T (clock w))), w1).
Proof.
  intros HT Hrt w1. subst w1. rewrite (store_tokens_run _ _ T) by done. simpl.
  rewrite (get_tokens_stored _ (sealed T w)).
  - by rewrite unseal_sealed.
  - simpl. by rewrite lookup_insert_eq.
  - apply Hrt.
Qed.

(** C3.  The PKCE verifier is single-use: after
    [store_code_verifier state verifier], the first
    [get_code_verifier state] returns the verifier and removes the entry,
    and a second one returns [None]; on a state that was never stored,
    [get_code_verifier] returns [None]. *)
Theorem code_verifier_single_use state verifier w :
  let w1 := (store_code_verifier state verifier w).2 in
  let first := get_code_verifier state w1 in
  let second := get_code_verifier state first.2 in
  first.1 = Return (Some verifier)
  ∧ _verifiers (storage first.2) !! state = None
  ∧ second.1 = Return None
  ∧ (∀ w' unknown, _verifiers (storage w') !! unknown = None →
       get_code_verifier unknown w' = (Return None, w')).
Proof.
  unfold store_code_verifier, get_code_verifier, bind, gets, modify, ret. simpl.
  rewrite lookup_insert_eq. simpl. rewrite !lookup_delete_eq. simpl.
  repeat split; try done.
  intros [[tokens verifiers] objects now iv] unknown Hunknown. simpl in *.
  rewrite Hunknown. unfold with_verifiers. simpl. by rewrite delete_id.
Qed.

(** C5.  Round trip: after [store_tokens(u, T)], [get_tokens(u)] returns
    the record [T] with the [stored_at] stamp of the storage time: it has
    that stamp under "stored_at" and agrees with [T] on every other key. *)
Theorem store_then_get_tokens user_id tokens T w t' iv' :
  heap w !! tokens = Some T →
  round_trips (entropy w) (clock w) (JDict (stamped T (clock w))) →
  ∃ record,
    (get_tokens user_id (later t' iv' (store_tokens user_id tokens w).2)).1
    = Return (JDict record)
    ∧ (store_tokens user_id tokens w).1 = Return tt
    ∧ record !! "stored_at" = Some (JStr (isoformat (clock w)))
    ∧ ∀ key, key ≠ "stored_at" → record !! key = T !! key.
Proof.
  intros HT Hrt. exists (stamped T (clock w)).
  rewrite (get_tokens_after_store _ _ T) by done.
  rewrite (store_tokens_run _ _ T) by done. simpl.
  split; [done|]. split; [done|]. split.
  - by rewrite lookup_insert_eq.
  - intros key Hkey. by rewrite lookup_insert_ne.
Qed.

(** C9.  [store_tokens] stamps the caller's own [dict]: after the call the
    object the caller passed holds the caller's fields and the added
    "stored_at" key; no copy is made. *)
Theorem store_tokens_stamps_callers_dict user_id tokens T w :
  heap w !! tokens = Some T →
  let w1 := (store_tokens user_id tokens w).2 in
  heap w1 !! tokens = Some (<["stored_at" := JStr (isoformat (clock w))]> T)
  ∧ (∀ other, other ≠ tokens → heap w1 !! other = heap w !! other).
Proof.
  intros HT w1. subst w1. rewrite (store_tokens_run _ _ T) by done. simpl.
  split; [by rewrite lookup_insert_eq|].
  intros other Hother. by rewrite lookup_insert_ne.
Qed.

(** The guard [if not encrypted] reads an empty stored value as no entry:
    nothing is decrypted and nothing is removed. *)
Lemma get_tokens_empty_entry user_id w :
  _tokens (storage w) !! user_id = Some [] →
  get_tokens user_id w = (Return JNull, w).
Proof.
  intros Hc. apply get_tokens_absent. by rewrite Hc.
Qed.

(** C6.  A stored ciphertext that fails to decrypt, to decode or to parse
    makes [get_tokens] return [None] without raising and removes the
    entry, so that every later [get_tokens] for the user finds no entry
    and returns [None] again.  A stored ciphertext is a value the guard
    [if not encrypted] lets through, that is, a non-empty byte string. *)
Theorem corrupted_tokens_are_evicted user_id c w :
  _tokens (storage w) !! user_id = Some c →
  truthy_bytes (Some c) = true →
  unseal c = None →
  let w1 := (get_tokens user_id w).2 in
  get_tokens user_id w = (Return JNull, w1)
  ∧ _tokens (storage w1) !! user_id = None
  ∧ ∀ t iv, get_tokens user_id (later t iv w1) = (Return JNull, later t iv w1).
Proof.
  intros Hc Hne Hbad w1. subst w1.
  rewrite (get_tokens_stored _ c) by done. rewrite Hbad. simpl.
  split; [done|]. split; [by rewrite lookup_delete_eq|].
  intros t iv. apply get_tokens_absent. simpl. by rewrite lookup_delete_eq.
Qed.

Lemma is_token_expired_absent user_id w :
  _tokens (storage w) !! user_id = None →
  is_token_expired user_id w = (Return true, w).
Proof.
  intros Hno. unfold is_token_expired, bind.
  rewrite get_tokens_absent by (by rewrite Hno). done.
Qed.

(** What [is_token_expired] computes from a record that holds a stamp the
    library reads back as [t] and an integer [expires_in]. *)
Lemma is_token_expired_on_record user_id record t d w :
  get_tokens user_id w = (Return (JDict record), w) →
  record !! "stored_at" = Some (JStr (isoformat t)) →
  record !! "expires_in" = Some (JInt d) →
  fromisoformat (isoformat t) = Some t →
  valid_datetime t → valid_datetime (t + seconds d) →
  is_token_expired user_id w = (Return (t + seconds d <=? clock w), w).
Proof.
  intros Hget Hstamp Hd Hiso Ht Htd. unfold is_token_expired, bind. rewrite Hget.
  assert (Hne : record ≠ ∅) by (intros ->; by rewrite lookup_empty in Hstamp).
  unfold truthy. rewrite bool_decide_eq_false_2 by done. simpl.
  unfold dict_get, ret. rewrite Hstamp, Hd. simpl. rewrite Hiso. simpl.
  unfold valid_datetime, seconds, MAXORDINAL, US_PER_DAY, US_PER_SECOND in *.
  replace ((-999999999 <=? d `div` 86400) && (d `div` 86400 <=? 999999999)) with true.
  2:{ symmetry. apply andb_true_intro. split; apply Z.leb_le.
      - apply Z.div_le_lower_bound; lia.
      - apply Z.div_le_upper_bound; lia. }
  unfold datetime_add, ret, seconds, MAXORDINAL, US_PER_DAY, US_PER_SECOND.
  replace ((0 <=? t + 1000000 * d) && (t + 1000000 * d <? 3652059 * (86400 * 1000000)))
    with true by lia.
  done.
Qed.

(** Past the end of the calendar there is no expiry instant to compare
    with: the addition raises [OverflowError]. *)
Lemma is_token_expired_out_of_range user_id record t d w :
  get_tokens user_id w = (Return (JDict record), w) →
  record !! "stored_at" = Some (JStr (isoformat t)) →
  record !! "expires_in" = Some (JInt d) →
  fromisoformat (isoformat t) = Some t →
  ¬ valid_datetime (t + seconds d) →
  is_token_expired user_id w = (Raise (Builtin PyOverflowError), w).
Proof.
  intros Hget Hstamp Hd Hiso Htd. unfold is_token_expired, bind. rewrite Hget.
  assert (Hne : record ≠ ∅) by (intros ->; by rewrite lookup_empty in Hstamp).
  unfold truthy. rewrite bool_decide_eq_false_2 by done. simpl.
  unfold dict_get, ret. rewrite Hstamp, Hd. simpl. rewrite Hiso. simpl.
  destruct ((-999999999 <=? d `div` 86400) && (d `div` 86400 <=? 999999999)); [|done].
  unfold datetime_add, ret, raise.
  unfold valid_datetime in Htd.
  destruct ((0 <=? t + seconds d) && (t + seconds d <? MAXORDINAL * US_PER_DAY)) eqn:Hin;
    [|done].
  apply andb_prop in Hin as [?%Z.leb_le ?%Z.ltb_lt]. lia.
Qed.

(** C4.  For a record stored by [store_tokens] at time [t] with
    [expires_in = d] seconds, [is_token_expired] evaluated when the clock
    reads [t'] returns [False] if [t' < t + d] and [True] if [t' >= t + d];
    for a user with no record it returns [True].  The function takes no
    time argument: the instant it compares with the clock is the stamp
    [store_tokens] wrote plus the stored duration. *)
Theorem is_token_expired_after_store user_id tokens T d w t' iv' :
  heap w !! tokens = Some T →
  T !! "expires_in" = Some (JInt d) →
  let t := clock w in
  round_trips (entropy w) t (JDict (stamped T t)) →
  fromisoformat (isoformat t) = Some t →
  valid_datetime t → valid_datetime (t + seconds d) →
  let w1 := later t' iv' (store_tokens user_id tokens w).2 in
  (t' < t + seconds d → (is_token_expired user_id w1).1 = Return false)
  ∧ (t + seconds d ≤ t' → (is_token_expired user_id w1).1 = Return true)
  ∧ (∀ w' user, _tokens (storage w') !! user = None →
       is_token_expired user w' = (Return true, w')).
Proof.
  intros HT Hd t Hrt Hiso Ht Htd w1.
  assert (Hrun : is_token_expired user_id w1 = (Return (t + seconds d <=? t'), w1)).
  { apply (is_token_expired_on_record _ (stamped T t)); try done.
    - by apply get_tokens_after_store.
    - by rewrite lookup_insert_eq.
    - by rewrite lookup_insert_ne. }
  rewrite Hrun. simpl. split; [|split].
  - intros Hlt. f_equal. lia.
  - intros Hle. f_equal. lia.
  - intros w' user. apply is_token_expired_absent.
Qed.

End Store.

Import Reference Examples.Store.

(** The record the example store seals at noon. *)
Lemma example_round_trips :
  round_trips (entropy start) (clock start)
    (JDict (<["stored_at" := JStr (isoformat (clock start))]> user_tokens)).
Proof. repeat split; vm_compute; reflexivity. Qed.

Lemma code_verifier_single_use_witness :
  let w1 := (store_code_verifier "test_state_123" "test_verifier_xyz" start).2 in
  (get_code_verifier "test_state_123" w1).1 = Return (Some "test_verifier_xyz")
  ∧ (get_code_verifier "test_state_123" (get_code_verifier "test_state_123" w1).2).1
    = Return None
  ∧ (get_code_verifier "nonexistent" start).1 = Return None.
Proof.
  pose proof (code_verifier_single_use "test_state_123" "test_verifier_xyz" start)
    as (Hfirst & _ & Hsecond & Hunknown).
  split; [exact Hfirst|]. split; [exact Hsecond|].
  rewrite (Hunknown start "nonexistent"); [reflexivity | vm_compute; reflexivity].
Defined.

Lemma store_then_get_tokens_witness :
  isoformat noon = "2024-01-01T12:00:00"
  ∧ ∃ record,
      (get_tokens "user123"
         (later (noon + seconds 5) [] (store_tokens "user123" 1%positive start).2)).1
      = Return (JDict record)
      ∧ (store_tokens "user123" 1%positive start).1 = Return tt
      ∧ record !! "stored_at" = Some (JStr (isoformat noon))
      ∧ ∀ key, key ≠ "stored_at" → record !! key = user_tokens !! key.
Proof.
  split; [vm_compute; reflexivity|].
  apply (store_then_get_tokens "user123" 1%positive user_tokens start).
  - vm_compute; reflexivity.
  - exact example_round_trips.
Defined.

Lemma store_tokens_stamps_callers_dict_witness :
  heap (store_tokens "user123" 1%positive start).2 !! 1%positive
  = Some (<["stored_at" := JStr (isoformat noon)]> user_tokens).
Proof.
  apply (store_tokens_stamps_callers_dict "user123" 1%positive user_tokens start).
  vm_compute; reflexivity.
Defined.

Lemma corrupted_tokens_are_evicted_witness :
  let w1 := (get_tokens "user123" garbled).2 in
  get_tokens "user123" garbled = (Return JNull, w1)
  ∧ _tokens (storage w1) !! "user123" = None
  ∧ ∀ t iv, get_tokens "user123" (later t iv w1) = (Return JNull, later t iv w1).
Proof.
  apply (corrupted_tokens_are_evicted "user123" (encode "not a token at all") garbled);
    vm_compute; reflexivity.
Defined.

(** Stored at noon with [expires_in = 3600]: not expired half an hour
    later, expired from one o'clock on. *)
Lemma is_token_expired_after_store_witness :
  (is_token_expired "user123"
     (later (noon + seconds 1800) [] (store_tokens "user123" 1%positive start).2)).1
  = Return false
  ∧ (is_token_expired "user123"
       (later (noon + seconds 3600) [] (store_tokens "user123" 1%positive start).2)).1
    = Return true
  ∧ is_token_expired "nonexistent_user" start = (Return true, start).
Proof.
  assert (Hheap : heap start !! 1%positive = Some user_tokens) by (vm_compute; reflexivity).
  assert (Hd : user_tokens !! "expires_in" = Some (JInt 3600)) by (vm_compute; reflexivity).
  assert (Hiso : fromisoformat (isoformat (clock start)) = Some (clock start))
    by (vm_compute; reflexivity).
  assert (Hnoon : valid_datetime (clock start)) by (vm_compute; split; [discriminate|reflexivity]).
  assert (Hend : valid_datetime (clock start + seconds 3600))
    by (vm_compute; split; [discriminate|reflexivity]).
  split; [|split].
  - apply (is_token_expired_after_store "user123" 1%positive user_tokens 3600 start
             (noon + seconds 1800) [] Hheap Hd example_round_trips Hiso Hnoon Hend).
    vm_compute. reflexivity.
  - apply (is_token_expired_after_store "user123" 1%positive user_tokens 3600 start
             (noon + seconds 3600) [] Hheap Hd example_round_trips Hiso Hnoon Hend).
    vm_compute. discriminate.
  - apply (is_token_expired_after_store "user123" 1%positive user_tokens 3600 start
             noon [] Hheap Hd example_round_trips Hiso Hnoon Hend).
    vm_compute; reflexivity.
Defined.

End Token_storage_spec.

(** ** More on the executor: every kind of answer *)

Module Executor_spec.
Import Py Graph_client Graph_client_spec.
#[local] Open Scope py_scope.

Section Executor.
Context `{Repr}.
Variables (self : GraphClient) (method endpoint : string)
  (data : option json) (params : option (gmap string json)).

Abbreviation request := (issued_request self method endpoint data params).
Abbreviation call := (_make_request self method endpoint data params).

Ltac unfold_attempt :=
  rewrite _make_request_equation_1;
  unfold try_except, bind, client_request, retry_after_of, sleep, modify, raise, ret, lift;
  cbn zeta; fold request.

Ltac one_attempt :=
  unfold after_attempts; simpl; rewrite ?app_nil_r; try done.

(** A retryable answer with retries left: sleep, then the next attempt. *)
Lemma call_retryable rc w :
  retryable (network w (length (sent w)) request) = true →
  (rc < MAX_RETRIES)%nat →
  call rc w = call (rc + 1) (after_attempts w request 1 (backoff_delays rc 1)).
Proof.
  intros Hretry Hlt.
  destruct (network w (length (sent w)) request) as [response|cls msg] eqn:Hnet.
  - apply (call_server_error _ _ _ _ _ _ _ response); [done | simpl in Hretry; lia | done].
  - unfold_attempt. rewrite Hnet.
    destruct cls; simpl in Hretry |- *; try done;
      (destruct (decide (rc < MAX_RETRIES)%nat); [|done]);
      unfold after_attempts, backoff_delays; simpl; done.
Qed.

(** A retryable answer with no retry left ends the call. *)
Lemma call_exhausted rc w :
  retryable (network w (length (sent w)) request) = true →
  (MAX_RETRIES ≤ rc)%nat →
  call rc w = (Raise (exhausted_error (network w (length (sent w)) request)),
               after_attempts w request 1 []).
Proof.
  intros Hretry Hge.
  destruct (network w (length (sent w)) request) as [response|cls msg] eqn:Hnet.
  - rewrite (call_server_error_exhausted _ _ _ _ _ _ _ response);
      [done | done | simpl in Hretry; lia | done].
  - unfold_attempt. rewrite Hnet.
    destruct cls; simpl in Hretry |- *; try done;
      (destruct (decide (rc < MAX_RETRIES)%nat); [lia|]); one_attempt.
Qed.

Lemma call_after_retryable N : ∀ rc w,
  (rc + N ≤ MAX_RETRIES)%nat →
  (∀ i, (i < N)%nat →
     retryable (network w (length (sent w) + i)%nat request) = true) →
  call rc w = call (rc + N) (after_attempts w request N (backoff_delays rc N)).
Proof.
  induction N as [|N IH]; intros rc w Hle Herr.
  - rewrite Nat.add_0_r. unfold backoff_delays; simpl.
    destruct w; unfold after_attempts; simpl. by rewrite !app_nil_r.
  - pose proof (Herr 0%nat ltac:(lia)) as H0. rewrite Nat.add_0_r in H0.
    rewrite (call_retryable rc w H0) by lia.
    rewrite IH.
    + rewrite after_attempts_compose.
      replace (rc + 1 + N)%nat with (rc + S N)%nat by lia.
      by replace (rc + 1)%nat with (S rc) by lia.
    + lia.
    + intros i Hi. simpl. rewrite length_app. simpl.
      replace (length (sent w) + 1 + i)%nat with (length (sent w) + S i)%nat by lia.
      apply Herr. lia.
Qed.

(** Attempts and sleeps of a call that starts at [rc]. *)
Lemma call_attempts_and_sleeps rc w :
  (rc ≤ MAX_RETRIES)%nat →
  ∃ n, (1 ≤ n ≤ S (MAX_RETRIES - rc))%nat
       ∧ (call rc w).2 = after_attempts w request n (backoff_delays rc (n - 1)).
Proof.
  remember (MAX_RETRIES - rc)%nat as k eqn:Hk.
  revert rc w Hk.
  induction k as [k IH] using lt_wf_ind. intros rc w Hk Hrc.
  destruct (call_first_attempt self method endpoint data params rc w)
    as [[o Ho]|[Hlt Hnext]].
  - exists 1%nat. rewrite Ho. split; [lia|done].
  - destruct (IH (MAX_RETRIES - (rc + 1))%nat ltac:(lia) (rc + 1)%nat
                (after_attempts w request 1 (backoff_delays rc 1)) eq_refl ltac:(lia))
      as (n & Hn & Hw).
    exists (1 + n)%nat. rewrite Hnext, Hw, after_attempts_compose.
    split; [lia|]. f_equal.
    replace (1 + n - 1)%nat with (S (n - 1)) by lia.
    unfold backoff_delays. simpl. by replace (rc + 1)%nat with (S rc) by lia.
Qed.

(** X1.  Server errors, timeouts and network errors draw on one retry
    budget.  If the first [N] answers, [N] at most [MAX_RETRIES], are
    retryable in any mix and the next is a success whose result is [v],
    the call returns [v] after [N + 1] attempts and sleeps 1, 2, 4, ...;
    if the first four answers are all retryable, the call makes four
    attempts, sleeps 1, 2 and 4, and raises the failure that names the
    kind of the fourth answer: "Server error after 3 retries" with the
    response text, or "Network error after 3 retries" with the
    exception's text. *)
Theorem retries_share_one_budget w :
  let answer i := network w (length (sent w) + i)%nat request in
  (∀ N response v,
     (N ≤ MAX_RETRIES)%nat →
     (∀ i, (i < N)%nat → retryable (answer i) = true) →
     answer N = Responded response →
     200 ≤ status_code response < 300 →
     success_result response = Some v →
     call 0 w = (Return v, after_attempts w request (N + 1) (take N [1; 2; 4])))
  ∧ ((∀ i, (i ≤ MAX_RETRIES)%nat → retryable (answer i) = true) →
     call 0 w = (Raise (exhausted_error (answer MAX_RETRIES)),
                 after_attempts w request (MAX_RETRIES + 1) [1; 2; 4])).
Proof.
  intros answer. split.
  - intros N response v HN Herr Hok Hstatus Hv.
    rewrite (call_after_retryable N 0 w) by (done || lia). simpl.
    rewrite (call_success _ _ _ _ _ _ _ response v).
    + rewrite after_attempts_compose, app_nil_r. by rewrite backoff_delays_from_0 by lia.
    + simpl. rewrite length_app, length_replicate. done.
    + lia.
    + done.
  - intros Herr.
    rewrite (call_after_retryable MAX_RETRIES 0 w)
      by (lia || (intros; apply Herr; lia)).
    rewrite call_exhausted.
    + rewrite after_attempts_compose. simpl. rewrite length_app. done.
    + simpl. rewrite length_app. apply (Herr MAX_RETRIES). lia.
    + simpl. lia.
Qed.

(** X2.  Whatever the service does, one call issues the same request
    between one and four times and nothing else, and it sleeps exactly
    between attempts: the sleeps are the first [n - 1] of 1, 2, 4, so a
    call never blocks for more than 7 time units in total. *)
Theorem call_is_bounded w :
  ∃ n, (1 ≤ n ≤ MAX_RETRIES + 1)%nat
       ∧ (call 0 w).2 = after_attempts w request n (take (n - 1) [1; 2; 4]).
Proof.
  destruct (call_attempts_and_sleeps 0 w) as (n & Hn & Hw); [lia|].
  exists n. unfold MAX_RETRIES in *. split; [lia|].
  rewrite Hw. by rewrite backoff_delays_from_0 by (unfold MAX_RETRIES; lia).
Qed.

(** X3.  An answer that is neither a server error, a timeout nor a network
    error ends the call after that one attempt and without a sleep, at any
    retry count; a transport error of another kind leaves the call as it
    came. *)
Theorem other_answers_are_never_retried rc w :
  retryable (network w (length (sent w)) request) = false →
  ∃ o, call rc w = (o, after_attempts w request 1 [])
       ∧ ∀ cls msg, network w (length (sent w)) request = Failed cls msg →
                    o = Raise (Transport cls msg).
Proof.
  intros Hretry. unfold_attempt.
  destruct (network w (length (sent w)) request) as [response|cls msg] eqn:Hnet;
    simpl in Hretry.
  - rewrite Hretry.
    destruct (status_code response =? 401); [eexists; split; [one_attempt|done]|].
    destruct (status_code response =? 429).
    { destruct (resp_headers response !! "Retry-After") as [s|];
        [destruct (py_int s)|]; simpl; eexists; (split; [one_attempt|done]). }
    destruct (400 <=? status_code response); [eexists; split; [one_attempt|done]|].
    destruct (status_code response =? 204); [eexists; split; [one_attempt|done]|].
    destruct (response_json response); simpl; eexists; (split; [one_attempt|done]).
  - destruct cls; simpl in Hretry |- *; try done.
    eexists. split; [one_attempt|]. by intros ? ? [= <- <-].
Qed.

(** X4.  A client error other than 401 and 429 (status 400 to 499) ends the
    call at once with "API error <status>: <message>", where the message
    is the [error.message] of the parsed body when the body has that
    shape, and the response text when the body does not parse or holds no
    "error". *)
Theorem client_errors_carry_the_provider_message rc w response :
  network w (length (sent w)) request = Responded response →
  400 ≤ status_code response < 500 →
  status_code response ≠ 401 → status_code response ≠ 429 →
  call rc w = (Raise (GraphAPIError ("API error " +:+ pretty (status_code response)
                                     +:+ ": " +:+ py_str (api_error_message response))),
               after_attempts w request 1 [])
  ∧ (∀ d e m, response_json response = Some (JDict d) →
       d !! "error" = Some (JDict e) → e !! "message" = Some (JStr m) →
       py_str (api_error_message response) = m)
  ∧ (response_json response = None →
       py_str (api_error_message response) = text response)
  ∧ (∀ d, response_json response = Some (JDict d) → d !! "error" = None →
       py_str (api_error_message response) = text response).
Proof.
  intros Hnet Hstatus H401 H429. split; [|split; [|split]].
  - unfold_attempt. rewrite Hnet.
    replace (status_code response =? 401) with false by lia.
    replace (status_code response =? 429) with false by lia.
    replace (500 <=? status_code response) with false by lia.
    replace (400 <=? status_code response) with true by lia.
    one_attempt.
  - intros d e m Hd He Hm. unfold api_error_message. rewrite Hd, He. simpl.
    by rewrite Hm.
  - intros Hd. unfold api_error_message. by rewrite Hd.
  - intros d Hd He. unfold api_error_message. by rewrite Hd, He.
Qed.

(** What the success branch does with an answer below 400. *)
Lemma call_below_400 rc w response :
  network w (length (sent w)) request = Responded response →
  status_code response < 400 →
  call rc w =
    (if status_code response =? 204 then Return (JDict ∅)
     else match response_json response with
          | Some v => Return v
          | None => Raise (Builtin PyJSONDecodeError)
          end, after_attempts w request 1 []).
Proof.
  intros Hnet Hstatus. unfold_attempt. rewrite Hnet.
  replace (status_code response =? 401) with false by lia.
  replace (status_code response =? 429) with false by lia.
  replace (500 <=? status_code response) with false by lia.
  replace (400 <=? status_code response) with false by lia.
  destruct (status_code response =? 204); [one_attempt|].
  destruct (response_json response); simpl; one_attempt.
Qed.

(** X5.  An answer below 400 is a success: a 204 returns the empty dict
    whatever its body; any other status returns the parsed body, and
    raises the JSON decoding error, after the request was delivered and
    without a retry, when the body does not parse (an empty body
    included). *)
Theorem success_bodies rc w response :
  network w (length (sent w)) request = Responded response →
  status_code response < 400 →
  (status_code response = 204 →
     call rc w = (Return (JDict ∅), after_attempts w request 1 []))
  ∧ (status_code response ≠ 204 → ∀ v, response_json response = Some v →
     call rc w = (Return v, after_attempts w request 1 []))
  ∧ (status_code response ≠ 204 → response_json response = None →
     call rc w = (Raise (Builtin PyJSONDecodeError), after_attempts w request 1 [])).
Proof.
  intros Hnet Hstatus. rewrite (call_below_400 rc w response) by done.
  split; [|split].
  - intros ->. done.
  - intros H204 v ->. by replace (status_code response =? 204) with false by lia.
  - intros H204 ->. by replace (status_code response =? 204) with false by lia.
Qed.

End Executor.

Import Reference Examples.Graph.

(** A timeout, then a 500, then the body: three attempts, sleeps of 1 and
    2.  Three 500s and then a refused connection: four attempts and the
    network failure. *)
Lemma retries_share_one_budget_witness :
  _make_request client "GET" "/me/messages/test_id" None None 0 (fresh recovering)
  = (Return (JDict (<["id" := JStr "test_id"]> ∅)),
     after_attempts (fresh recovering) read_request 3 [1; 2])
  ∧ _make_request client "GET" "/me/messages/test_id" None None 0 (fresh going_dark)
    = (Raise (GraphAPIError "Network error after 3 retries: Connection refused"),
       after_attempts (fresh going_dark) read_request 4 [1; 2; 4]).
Proof.
  split.
  - apply (proj1 (retries_share_one_budget client "GET" "/me/messages/test_id"
                    None None (fresh recovering)) 2%nat ok_response).
    + unfold MAX_RETRIES. lia.
    + intros i Hi. destruct i as [|[|i]]; [reflexivity | reflexivity | lia].
    + reflexivity.
    + simpl. lia.
    + reflexivity.
  - apply (proj2 (retries_share_one_budget client "GET" "/me/messages/test_id"
                    None None (fresh going_dark))).
    intros i Hi. unfold MAX_RETRIES in Hi.
    destruct i as [|[|[|[|i]]]]; [reflexivity.. | lia].
Defined.

Lemma other_answers_are_never_retried_witness :
  _make_request client "GET" "/me/messages/test_id" None None 0 (fresh unreachable)
  = (Raise (Transport OtherTransportError "Unsupported protocol"),
     after_attempts (fresh unreachable) read_request 1 []).
Proof.
  destruct (other_answers_are_never_retried client "GET" "/me/messages/test_id"
              None None 0%nat (fresh unreachable) eq_refl) as (o & Hcall & Ho).
  rewrite Hcall. by rewrite (Ho OtherTransportError "Unsupported protocol" eq_refl).
Defined.

(** The 404 of the tests. *)
Lemma client_errors_carry_the_provider_message_witness :
  _make_request client "GET" "/me/messages/invalid_id" None None 0
    (fresh (always not_found))
  = (Raise (GraphAPIError "API error 404: Resource not found"),
     after_attempts (fresh (always not_found))
       (issued_request client "GET" "/me/messages/invalid_id" None None) 1 []).
Proof.
  destruct (client_errors_carry_the_provider_message client "GET"
              "/me/messages/invalid_id" None None 0%nat (fresh (always not_found))
              not_found eq_refl) as (Hcall & Hmessage & _);
    [simpl; lia | discriminate | discriminate |].
  rewrite Hcall.
  rewrite (Hmessage _ _ "Resource not found" eq_refl eq_refl eq_refl).
  vm_compute. reflexivity.
Defined.

(** A 204 returns the empty dict; a 202 with no content raises. *)
Lemma success_bodies_witness :
  _make_request client "POST" "/me/sendMail" None None 0 (fresh (always no_content))
  = (Return (JDict ∅),
     after_attempts (fresh (always no_content))
       (issued_request client "POST" "/me/sendMail" None None) 1 [])
  ∧ _make_request client "POST" "/me/sendMail" None None 0
      (fresh (always accepted_empty))
    = (Raise (Builtin PyJSONDecodeError),
       after_attempts (fresh (always accepted_empty))
         (issued_request client "POST" "/me/sendMail" None None) 1 []).
Proof.
  split.
  - destruct (success_bodies client "POST" "/me/sendMail" None None 0%nat
                (fresh (always no_content)) no_content eq_refl) as (H204 & _);
      [simpl; lia|].
    apply H204. reflexivity.
  - destruct (success_bodies client "POST" "/me/sendMail" None None 0%nat
                (fresh (always accepted_empty)) accepted_empty eq_refl)
      as (_ & _ & Hempty); [simpl; lia|].
    apply Hempty; [discriminate | reflexivity].
Defined.

End Executor_spec.

(** ** The other Graph operations *)

Module Operations_spec.
Import Py Graph_client Graph_client_spec Executor_spec.
#[local] Open Scope py_scope.

Section Operations.
Context `{Repr} `{DateTimeFormat}.
Variable self : GraphClient.

(** An operation that ends with [result.get(...)] hands a [dict] result on
    and fails on any other result; what the executor raises, it raises. *)
Lemma returns_dict_result (c : M World json) key w :
  (let* result := c in let* _ := dict_get result key JNull in ret result) w
  = match c w with
    | (Return (JDict d), w') => (Return (JDict d), w')
    | (Return _, w') => (Raise (Builtin PyAttributeError), w')
    | (Raise e, w') => (Raise e, w')
    end.
Proof.
  unfold bind, dict_get, ret, raise.
  destruct (c w) as [[v|e] w']; [|done]. by destruct v.
Qed.

(** Requests and sleeps of an executor call whose result is post-processed
    without touching the world. *)
Lemma world_of_bind {A} method endpoint data params (k : json → M World A) w :
  (∀ v w', (k v w').2 = w') →
  ∃ n, (1 ≤ n ≤ MAX_RETRIES + 1)%nat
       ∧ ((let* result := _make_request self method endpoint data params 0 in
           k result) w).2
         = after_attempts w (issued_request self method endpoint data params) n
             (take (n - 1) [1; 2; 4]).
Proof.
  intros Hk.
  destruct (call_attempts_and_sleeps self method endpoint data params 0 w)
    as (n & Hn & Hw); [lia|].
  exists n. unfold MAX_RETRIES in *. split; [lia|].
  rewrite backoff_delays_from_0 in Hw by (unfold MAX_RETRIES; lia).
  rewrite <- Hw. unfold bind.
  destruct (_make_request _ _ _ _ _ _ _) as [[v|e] w']; [apply Hk|done].
Qed.

Lemma dict_get_then_ret_world key (v : json) (w' : World) :
  ((let* _ := dict_get v key JNull in ret v) w').2 = w'.
Proof. unfold bind, dict_get, ret, raise. by destruct v. Qed.

(** X6.  [write_email] is one executor operation, a POST to [/me/messages]
    whose body is the message itself: subject, importance, body with its
    content type, one [{"emailAddress": {"address": a}}] per recipient in
    order, and a "ccRecipients" list exactly when [cc] is a non-empty
    list.  Nothing is validated: an empty recipient list, subject or body
    is sent as it is.  A success whose body is a dict is returned; a
    success whose body is anything else raises [AttributeError] after the
    draft request was delivered. *)
Theorem write_email_posts_the_draft to subject body cc importance body_type w :
  let message := build_message to subject body cc importance body_type in
  let request := issued_request self "POST" "/me/messages" (Some (JDict message)) None in
  let run := write_email self to subject body cc importance body_type w in
  (∃ n, (1 ≤ n ≤ MAX_RETRIES + 1)%nat
        ∧ run.2 = after_attempts w request n (take (n - 1) [1; 2; 4]))
  ∧ (message !! "subject" = Some (JStr subject)
     ∧ message !! "importance" = Some (JStr (importance_value importance))
     ∧ message !! "body" = Some (JDict (<["contentType" := JStr body_type]>
                                         (<["content" := JStr body]> ∅)))
     ∧ message !! "toRecipients" = Some (recipients to)
     ∧ message !! "ccRecipients" = recipients <$> present_list cc)
  ∧ (∀ response v,
       network w (length (sent w)) request = Responded response →
       status_code response < 400 →
       success_result response = Some v →
       run = (match v with
              | JDict d => Return (JDict d)
              | _ => Raise (Builtin PyAttributeError)
              end, after_attempts w request 1 [])).
Proof.
  intros message request run. subst run. unfold write_email. fold message.
  split; [|split].
  - apply world_of_bind. intros v w'. apply dict_get_then_ret_world.
  - subst message. unfold build_message.
    destruct (present_list cc); simpl; repeat split; by simplify_map_eq.
  - intros response v Hnet Hstatus Hv. rewrite returns_dict_result.
    rewrite (call_success self "POST" "/me/messages" (Some (JDict message)) None
               0 w response v) by done.
    by destruct v.
Qed.

(** X7.  [schedule_meeting] is one executor operation, a POST to
    [/me/events] whose body is the event: subject; start and end written
    with [%Y-%m-%dT%H:%M:%S] beside the time zone name; every attendee as
    [{"emailAddress": {"address": a}, "type": "required"}]; a "location"
    exactly when one is supplied, a "body" of content type HTML exactly
    when one is supplied; and the two keys "isOnlineMeeting" (true) and
    "onlineMeetingProvider" ("teamsForBusiness") exactly when [is_online]
    is set.  The times are not compared: an end before the start is sent
    as it is. *)
Theorem schedule_meeting_posts_the_event subject attendees start_time end_time
    location body is_online timezone w :
  let event :=
    build_event subject attendees start_time end_time location body is_online
      timezone in
  let request := issued_request self "POST" "/me/events" (Some (JDict event)) None in
  let run :=
    schedule_meeting self subject attendees start_time end_time location body
      is_online timezone w in
  (∃ n, (1 ≤ n ≤ MAX_RETRIES + 1)%nat
        ∧ run.2 = after_attempts w request n (take (n - 1) [1; 2; 4]))
  ∧ (event !! "subject" = Some (JStr subject)
     ∧ event !! "start" = Some (date_time_zone start_time timezone)
     ∧ event !! "end" = Some (date_time_zone end_time timezone)
     ∧ event !! "attendees" = Some (required_attendees attendees)
     ∧ event !! "location"
       = (λ l, JDict (<["displayName" := JStr l]> ∅)) <$> present_str location
     ∧ event !! "body"
       = (λ b, JDict (<["contentType" := JStr "HTML"]> (<["content" := JStr b]> ∅)))
         <$> present_str body
     ∧ event !! "isOnlineMeeting" = (if is_online then Some (JBool true) else None)
     ∧ event !! "onlineMeetingProvider"
       = (if is_online then Some (JStr "teamsForBusiness") else None)).
Proof.
  intros event request run. subst run. unfold schedule_meeting. fold event.
  split.
  - apply world_of_bind. intros v w'. apply dict_get_then_ret_world.
  - subst event. unfold build_event.
    destruct (present_str location), (present_str body), is_online; simpl;
      repeat split; by simplify_map_eq.
Qed.

(** X8.  [check_scheduling_assistant] is one executor operation, a POST to
    [/me/calendar/getSchedule] whose body holds the attendees as plain
    address strings under "schedules", the window's start and end written
    with [%Y-%m-%dT%H:%M:%S] beside the time zone name, and the duration,
    whatever its sign, under "availabilityViewInterval"; a success returns
    the parsed body as it is, dict or not. *)
Theorem check_scheduling_assistant_request attendees duration start_date end_date
    timezone w :
  ∃ data,
    let request :=
      issued_request self "POST" "/me/calendar/getSchedule" (Some (JDict data)) None in
    let run :=
      check_scheduling_assistant self attendees duration start_date end_date
        timezone w in
    (∃ n, (1 ≤ n ≤ MAX_RETRIES + 1)%nat
          ∧ run.2 = after_attempts w request n (take (n - 1) [1; 2; 4]))
    ∧ (data !! "schedules" = Some (JList (map JStr attendees))
       ∧ data !! "startTime" = Some (date_time_zone start_date timezone)
       ∧ data !! "endTime" = Some (date_time_zone end_date timezone)
       ∧ data !! "availabilityViewInterval" = Some (JInt duration))
    ∧ (∀ response v,
         network w (length (sent w)) request = Responded response →
         status_code response < 400 →
         success_result response = Some v →
         run = (Return v, after_attempts w request 1 [])).
Proof.
  unfold check_scheduling_assistant.
  match goal with
  | |- context [_make_request self "POST" _ (Some (JDict ?d)) None 0] => exists d; set (data := d)
  end.
  cbv zeta. split; [|split].
  - apply (world_of_bind "POST" "/me/calendar/getSchedule" (Some (JDict data)) None
             (λ result, ret result)). done.
  - subst data. repeat split; by simplify_map_eq.
  - intros response v Hnet Hstatus Hv. unfold bind.
    by rewrite (call_success self "POST" "/me/calendar/getSchedule"
                  (Some (JDict data)) None 0 w response v) by done.
Qed.

Lemma search_emails_unfold query folder top from_date :
  search_emails self query folder top from_date
  = (let* result := _make_request self "GET"
                      ("/me/mailFolders/" +:+ folder +:+ "/messages") None
                      (Some (search_query_params query top from_date)) 0 in
     let* messages := dict_get result "value" (JList []) in
     let* _ := py_len messages in
     ret messages).
Proof.
  unfold search_emails, search_query_params. by destruct from_date.
Qed.

(** X9.  What [search_emails] returns when the service answers the search
    at once with a success: the "value" member of the body when that is a
    list, and the empty list when the body is a dict without "value"; a
    body that is not a dict raises [AttributeError] and a "value" that is
    null, a boolean or a number raises [TypeError], in every case after
    the one request. *)
Theorem search_emails_returns_value query folder top from_date w response body :
  let request :=
    issued_request self "GET" ("/me/mailFolders/" +:+ folder +:+ "/messages") None
      (Some (search_query_params query top from_date)) in
  let run := search_emails self query folder top from_date w in
  network w (length (sent w)) request = Responded response →
  status_code response < 400 →
  success_result response = Some body →
  run.2 = after_attempts w request 1 []
  ∧ (∀ d l, body = JDict d → d !! "value" = Some (JList l) → run.1 = Return (JList l))
  ∧ (∀ d, body = JDict d → d !! "value" = None → run.1 = Return (JList []))
  ∧ ((∀ d, body ≠ JDict d) → run.1 = Raise (Builtin PyAttributeError))
  ∧ (∀ d v, body = JDict d → d !! "value" = Some v →
       (v = JNull ∨ (∃ b, v = JBool b) ∨ (∃ z, v = JInt z)) →
       run.1 = Raise (Builtin PyTypeError)).
Proof.
  intros request run Hnet Hstatus Hbody. subst run.
  rewrite search_emails_unfold. unfold bind.
  rewrite (call_success self "GET" _ None _ 0 w response body) by done.
  unfold dict_get, py_len, ret, raise.
  split; [|split; [|split; [|split]]].
  - destruct body as [| | | | |d]; try done.
    by destruct (default (JList []) (d !! "value")).
  - by intros d l -> ->.
  - by intros d -> ->.
  - intros Hnot. destruct body as [| | | | |d]; try done. by destruct (Hnot d).
  - intros d v -> -> [-> | [[b ->] | [z ->]]]; done.
Qed.

(** X10.  [send_email] succeeds only if the executor can parse the answer.
    On either path, sending a draft or composing, an answer below 400
    other than 204 whose body does not parse, an empty body included,
    makes [send_email] raise the JSON decoding error although its one
    request was delivered; a 204 makes it return. *)
Theorem send_email_needs_a_parsed_answer draft_id to subject body cc importance
    body_type w request response :
  (∃ d, present_str draft_id = Some d
        ∧ request = issued_request self "POST" ("/me/messages/" +:+ d +:+ "/send")
                      None None)
  ∨ (∃ t s b, present_str draft_id = None ∧ present_list to = Some t
              ∧ present_str subject = Some s ∧ present_str body = Some b
              ∧ request = issued_request self "POST" "/me/sendMail"
                  (Some (JDict (<["message" :=
                     JDict (build_message t s b cc importance body_type)]> ∅))) None) →
  network w (length (sent w)) request = Responded response →
  status_code response < 400 →
  let run := send_email self draft_id to subject body cc importance body_type w in
  (status_code response = 204 → run = (Return tt, after_attempts w request 1 []))
  ∧ (status_code response ≠ 204 → response_json response = None →
     run = (Raise (Builtin PyJSONDecodeError), after_attempts w request 1 [])).
Proof.
  intros Hpath Hnet Hstatus run. subst run. unfold send_email, bind.
  destruct Hpath as [(d & Hd & ->) | (t & s & b & Hd & Ht & Hs & Hb & ->)].
  - rewrite Hd.
    rewrite (call_below_400 self "POST" _ None None 0 w response) by done.
    split.
    + intros ->. done.
    + intros H204 ->. by replace (status_code response =? 204) with false by lia.
  - rewrite Hd, Ht, Hs, Hb.
    rewrite (call_below_400 self "POST" "/me/sendMail" _ None 0 w response) by done.
    split.
    + intros ->. done.
    + intros H204 ->. by replace (status_code response =? 204) with false by lia.
Qed.

End Operations.

Import Reference Examples.Graph.

(** The draft of the tests with two CC recipients, answered by a dict. *)
Lemma write_email_posts_the_draft_witness :
  let message :=
    build_message ["to@example.com"] "Test" "Body"
      (Some ["cc1@example.com"; "cc2@example.com"]) NORMAL "HTML" in
  message !! "ccRecipients"
  = Some (recipients ["cc1@example.com"; "cc2@example.com"])
  ∧ write_email client ["to@example.com"] "Test" "Body"
      (Some ["cc1@example.com"; "cc2@example.com"]) NORMAL "HTML"
      (fresh (always ok_response))
    = (Return (JDict (<["id" := JStr "test_id"]> ∅)),
       after_attempts (fresh (always ok_response))
         (issued_request client "POST" "/me/messages" (Some (JDict message)) None)
         1 []).
Proof.
  intros message.
  destruct (write_email_posts_the_draft client ["to@example.com"] "Test" "Body"
              (Some ["cc1@example.com"; "cc2@example.com"]) NORMAL "HTML"
              (fresh (always ok_response)))
    as (_ & (_ & _ & _ & _ & Hcc) & Hrun).
  split; [exact Hcc|].
  apply (Hrun ok_response (JDict (<["id" := JStr "test_id"]> ∅)));
    [reflexivity | simpl; lia | reflexivity].
Defined.

Lemma search_emails_returns_value_witness :
  (search_emails client (Some "budget report") "inbox" 10 None
     (fresh (always two_messages))).1
  = Return (JList [JDict (<["id" := JStr "msg1"]> ∅);
                   JDict (<["id" := JStr "msg2"]> ∅)])
  ∧ (search_emails client None "inbox" 10 None (fresh (always ok_response))).1
    = Return (JList []).
Proof.
  split.
  - destruct (search_emails_returns_value client (Some "budget report") "inbox" 10
                None (fresh (always two_messages)) two_messages
                (JDict (<["value" :=
                   JList [JDict (<["id" := JStr "msg1"]> ∅);
                          JDict (<["id" := JStr "msg2"]> ∅)]]> ∅)))
      as (_ & Hlist & _); [reflexivity | simpl; lia | reflexivity |].
    apply (Hlist _ _ eq_refl). vm_compute. reflexivity.
  - destruct (search_emails_returns_value client None "inbox" 10
                None (fresh (always ok_response)) ok_response
                (JDict (<["id" := JStr "test_id"]> ∅)))
      as (_ & _ & Hnone & _); [reflexivity | simpl; lia | reflexivity |].
    apply (Hnone _ eq_refl). vm_compute. reflexivity.
Defined.

(** Sending a draft that the service accepts with a 202 and no content. *)
Lemma send_email_needs_a_parsed_answer_witness :
  send_email client (Some "AAMkAGI2THVSAAA=") None None None None NORMAL "HTML"
    (fresh (always accepted_empty))
  = (Raise (Builtin PyJSONDecodeError),
     after_attempts (fresh (always accepted_empty))
       (issued_request client "POST" "/me/messages/AAMkAGI2THVSAAA=/send" None None)
       1 []).
Proof.
  apply (send_email_needs_a_parsed_answer client (Some "AAMkAGI2THVSAAA=") None None
           None None NORMAL "HTML" (fresh (always accepted_empty)) _ accepted_empty).
  - left. exists "AAMkAGI2THVSAAA=". split; reflexivity.
  - reflexivity.
  - simpl. lia.
  - discriminate.
  - reflexivity.
Defined.

(** One attendee, hourly slots, a window of one day. *)
Lemma check_scheduling_assistant_request_witness :
  ∃ data,
    data !! "schedules" = Some (JList [JStr "user1@example.com"])
    ∧ data !! "availabilityViewInterval" = Some (JInt 60)
    ∧ check_scheduling_assistant client ["user1@example.com"] 60
        (datetime_of 2024 1 15 9 0 0) (datetime_of 2024 1 16 9 0 0) "UTC"
        (fresh (always ok_response))
      = (Return (JDict (<["id" := JStr "test_id"]> ∅)),
         after_attempts (fresh (always ok_response))
           (issued_request client "POST" "/me/calendar/getSchedule"
              (Some (JDict data)) None) 1 []).
Proof.
  destruct (check_scheduling_assistant_request client ["user1@example.com"] 60
              (datetime_of 2024 1 15 9 0 0) (datetime_of 2024 1 16 9 0 0) "UTC"
              (fresh (always ok_response)))
    as (data & _ & (Hschedules & _ & _ & Hduration) & Hrun).
  exists data. split; [exact Hschedules|]. split; [exact Hduration|].
  apply (Hrun ok_response); [reflexivity | simpl; lia | reflexivity].
Defined.

End Operations_spec.

(** ** More on the credential store *)

Module Store_spec.
Import Py Token_storage Token_storage_spec.
#[local] Open Scope py_scope.

Section Store.
Context `{Fernet} `{JsonCodec} `{TextCodec} `{DateTimeFormat}.

Abbreviation stamped T t := (<["stored_at" := JStr (isoformat t)]> T).

(** [get_tokens] ends by returning, and what it returns depends on the
    user's own entry only. *)
Lemma get_tokens_reads_own_entry user_id w w' :
  _tokens (storage w) !! user_id = _tokens (storage w') !! user_id →
  (get_tokens user_id w).1 = (get_tokens user_id w').1.
Proof.
  intros Hsame. unfold get_tokens, bind, gets, try_except, lift, ret, raise, modify.
  rewrite Hsame. destruct (truthy_bytes _); simpl; [|done].
  destruct (decrypt _) as [decrypted|]; simpl; [|done].
  destruct (decode decrypted) as [text|]; simpl; [|done].
  by destruct (loads text).
Qed.

(** [get_tokens] leaves the world as it is or removes the user's entry. *)
Lemma get_tokens_world user_id w :
  (get_tokens user_id w).2 = w
  ∨ (get_tokens user_id w).2 = with_tokens (delete user_id) w.
Proof.
  unfold get_tokens, bind, gets, try_except, lift, ret, raise, modify.
  destruct (truthy_bytes _); simpl; [|by left].
  destruct (decrypt _) as [decrypted|]; simpl; [|by right].
  destruct (decode decrypted) as [text|]; simpl; [|by right].
  destruct (loads text); simpl; [by left|by right].
Qed.

Lemma get_tokens_returns user_id w :
  ∃ v, (get_tokens user_id w).1 = Return v.
Proof.
  unfold get_tokens, bind, gets, try_except, lift, ret, raise, modify.
  destruct (truthy_bytes _); simpl; [|by eexists].
  destruct (decrypt _) as [decrypted|]; simpl; [|by eexists].
  destruct (decode decrypted) as [text|]; simpl; [|by eexists].
  destruct (loads text); simpl; by eexists.
Qed.

(** What [is_token_expired] answers depends on the user's entry and on the
    clock only. *)
Lemma is_token_expired_reads user_id w w' :
  _tokens (storage w) !! user_id = _tokens (storage w') !! user_id →
  clock w = clock w' →
  (is_token_expired user_id w).1 = (is_token_expired user_id w').1.
Proof.
  intros Hsame Hclock. unfold is_token_expired, bind.
  pose proof (get_tokens_reads_own_entry user_id w w' Hsame) as Hget.
  destruct (get_tokens_returns user_id w) as (v & Hv).
  assert (Hc : clock (get_tokens user_id w).2 = clock (get_tokens user_id w').2).
  { destruct (get_tokens_world user_id w) as [-> | ->],
      (get_tokens_world user_id w') as [-> | ->]; done. }
  destruct (get_tokens user_id w) as [o w1], (get_tokens user_id w') as [o' w1'].
  simpl in *. subst o o'.
  destruct (truthy v); simpl; [|done].
  unfold dict_get, fromisoformat_of, timedelta_seconds, datetime_add, utcnow, gets,
    lift, ret, raise.
  repeat (case_match; simplify_eq/=; rewrite ?Hc; try done).
Qed.

(** X11.  [delete_tokens] returns whether the user had an entry, whatever
    the entry holds, and removes that entry and nothing else; afterwards
    the user has no record: [get_tokens] returns [None],
    [is_token_expired] returns [True], and a second [delete_tokens]
    returns [False], each leaving the store as it is. *)
Theorem delete_tokens_removes_the_entry user_id w :
  let run := delete_tokens user_id w in
  run.1 = Return (bool_decide (is_Some (_tokens (storage w) !! user_id)))
  ∧ run.2 = with_tokens (delete user_id) w
  ∧ get_tokens user_id run.2 = (Return JNull, run.2)
  ∧ is_token_expired user_id run.2 = (Return true, run.2)
  ∧ delete_tokens user_id run.2 = (Return false, run.2).
Proof.
  intros run.
  assert (Hrun : run = (Return (bool_decide (is_Some (_tokens (storage w) !! user_id))),
                        with_tokens (delete user_id) w)).
  { subst run. unfold delete_tokens, bind, gets, modify, ret.
    destruct (_tokens (storage w) !! user_id) as [c|] eqn:Hc; simpl.
    - done.
    - destruct w as [[tokens verifiers] objects now iv]. unfold with_tokens. simpl in *.
      by rewrite delete_id. }
  rewrite Hrun. simpl.
  assert (Hgone : _tokens (storage (with_tokens (delete user_id) w)) !! user_id = None)
    by (simpl; by rewrite lookup_delete_eq).
  split; [done|]. split; [done|]. split; [|split].
  - apply get_tokens_absent. by rewrite Hgone.
  - by apply is_token_expired_absent.
  - unfold delete_tokens, bind, gets. by rewrite Hgone.
Qed.

(** X12.  Users do not interfere.  Whatever [store_tokens], [get_tokens],
    [delete_tokens] or [is_token_expired] does for one user, every other
    user gets the same answers from [get_tokens] and [is_token_expired]
    as before, and the PKCE verifiers are untouched. *)
Theorem users_do_not_interfere user_id other tokens w :
  other ≠ user_id →
  let untouched (w1 : World) :=
    (get_tokens other w1).1 = (get_tokens other w).1
    ∧ (is_token_expired other w1).1 = (is_token_expired other w).1
    ∧ _verifiers (storage w1) = _verifiers (storage w) in
  untouched (store_tokens user_id tokens w).2
  ∧ untouched (get_tokens user_id w).2
  ∧ untouched (delete_tokens user_id w).2
  ∧ untouched (is_token_expired user_id w).2.
Proof.
  intros Hother untouched.
  assert (Hframe : ∀ w1,
    _tokens (storage w1) !! other = _tokens (storage w) !! other →
    clock w1 = clock w → _verifiers (storage w1) = _verifiers (storage w) →
    untouched w1).
  { intros w1 Htokens Hclock Hverifiers. split; [|split].
    - by apply get_tokens_reads_own_entry.
    - by apply is_token_expired_reads.
    - done. }
  assert (Hget : ∀ w0, (get_tokens user_id w0).2 = w0
                       ∨ (get_tokens user_id w0).2 = with_tokens (delete user_id) w0)
    by apply get_tokens_world.
  split; [|split; [|split]].
  - destruct (heap w !! tokens) as [T|] eqn:HT.
    + rewrite (store_tokens_run _ _ T) by done. apply Hframe; simpl; try done.
      by rewrite lookup_insert_ne.
    + unfold store_tokens, bind, utcnow, gets, setitem. simpl. rewrite HT. simpl.
      by apply Hframe.
  - destruct (Hget w) as [-> | ->]; apply Hframe; simpl; try done.
    by rewrite lookup_delete_ne.
  - unfold delete_tokens, bind, gets, modify, ret.
    destruct (_tokens (storage w) !! user_id); simpl; apply Hframe; simpl; try done.
    by rewrite lookup_delete_ne.
  - assert (Hworld : (is_token_expired user_id w).2 = (get_tokens user_id w).2).
    { unfold is_token_expired, bind.
      destruct (get_tokens_returns user_id w) as (v & Hv).
      destruct (get_tokens user_id w) as [o w1]. simpl in *. subst o.
      destruct (truthy v); simpl; [|done].
      unfold dict_get, fromisoformat_of, timedelta_seconds, datetime_add, utcnow, gets,
        lift, ret, raise.
      repeat (case_match; simplify_eq/=; try done). }
    rewrite Hworld.
    destruct (Hget w) as [-> | ->]; apply Hframe; simpl; try done.
    by rewrite lookup_delete_ne.
Qed.

(** X13.  The store keeps a copy.  What the caller does to its dict after
    [store_tokens] returned does not reach the stored record: after
    [tokens[key] = value] the caller's object holds the new value, and
    [get_tokens] still returns the record as it was stored. *)
Theorem stored_record_is_a_copy user_id tokens T key value w t' iv' :
  heap w !! tokens = Some T →
  round_trips (entropy w) (clock w) (JDict (stamped T (clock w))) →
  let w1 := (store_tokens user_id tokens w).2 in
  let w2 := later t' iv' (setitem tokens key value w1).2 in
  heap w2 !! tokens = Some (<[key := value]> (stamped T (clock w)))
  ∧ get_tokens user_id w2 = (Return (JDict (stamped T (clock w))), w2).
Proof.
  intros HT Hrt w1 w2. subst w2 w1.
  rewrite (store_tokens_run _ _ T) by done.
  unfold setitem. simpl. rewrite lookup_insert_eq. simpl.
  split; [by rewrite lookup_insert_eq|].
  rewrite (get_tokens_stored _
             (encrypt (entropy w) (clock w)
                (encode (dumps (JDict (stamped T (clock w))))))).
  - by rewrite unseal_sealed.
  - simpl. by rewrite lookup_insert_eq.
  - apply Hrt.
Qed.

(** What [is_token_expired] does with a record whose stamp the library
    reads back as [t]: the lifetime is the record's "expires_in", 0 when
    the key is missing. *)
Lemma is_token_expired_on_stamped user_id record t w :
  get_tokens user_id w = (Return (JDict record), w) →
  record !! "stored_at" = Some (JStr (isoformat t)) →
  fromisoformat (isoformat t) = Some t →
  is_token_expired user_id w
  = (let* delta := timedelta_seconds (default (JInt 0) (record !! "expires_in")) in
     let* expiry_time := datetime_add t delta in
     let* now := utcnow in
     ret (expiry_time <=? now)) w.
Proof.
  intros Hget Hstamp Hiso. unfold is_token_expired, bind at 1. rewrite Hget.
  assert (Hne : record ≠ ∅) by (intros ->; by rewrite lookup_empty in Hstamp).
  unfold truthy. rewrite bool_decide_eq_false_2 by done. simpl.
  unfold dict_get, ret, bind. rewrite Hstamp. simpl. rewrite Hiso. simpl. done.
Qed.

(** X14.  A record stored without "expires_in" has a lifetime of 0: it is
    expired from the moment it is stored (and reads as not expired only
    while the clock is behind the storage time). *)
Theorem no_lifetime_means_expired user_id tokens T w t' iv' :
  heap w !! tokens = Some T →
  T !! "expires_in" = None →
  let t := clock w in
  round_trips (entropy w) t (JDict (stamped T t)) →
  fromisoformat (isoformat t) = Some t →
  valid_datetime t →
  let w1 := later t' iv' (store_tokens user_id tokens w).2 in
  is_token_expired user_id w1 = (Return (t <=? t'), w1)
  ∧ (t ≤ t' → is_token_expired user_id w1 = (Return true, w1)).
Proof.
  intros HT Hd t Hrt Hiso Ht w1.
  assert (Hrun : is_token_expired user_id w1 = (Return (t <=? t'), w1)).
  { rewrite (is_token_expired_on_stamped _ (stamped T t) t).
    - rewrite lookup_insert_ne, Hd by done. simpl.
      unfold bind, timedelta_seconds, datetime_add, ret, utcnow, gets. simpl.
      unfold valid_datetime, seconds, MAXORDINAL, US_PER_DAY, US_PER_SECOND in *.
      replace (t + 1000000 * 0) with t by lia.
      replace ((0 <=? t) && (t <? 3652059 * (86400 * 1000000))) with true by lia.
      done.
    - by apply get_tokens_after_store.
    - by rewrite lookup_insert_eq.
    - done. }
  split; [done|]. intros Hle. rewrite Hrun. do 2 f_equal. lia.
Qed.


(** X16.  The verifiers of different [state]s are independent, and a
    later [store_code_verifier] for the same [state] replaces the earlier
    verifier: after storing [first] and then [second] under [state], a
    lookup of another state returns what it would have returned before and
    leaves [state] alone, and the lookup of [state] returns [second]. *)
Theorem code_verifiers_by_state state other first second w :
  other ≠ state →
  let w1 := (store_code_verifier state first w).2 in
  let w2 := (store_code_verifier state second w1).2 in
  let elsewhere := get_code_verifier other w2 in
  elsewhere.1 = (get_code_verifier other w).1
  ∧ get_code_verifier state elsewhere.2
    = (Return (Some second), with_verifiers (delete state) elsewhere.2)
  ∧ _tokens (storage elsewhere.2) = _tokens (storage w).
Proof.
  intros Hother. unfold store_code_verifier, get_code_verifier, bind, gets, modify, ret.
  simpl. rewrite !lookup_insert_ne by done.
  split; [done|]. split; [|done].
  rewrite lookup_delete_ne, lookup_insert_eq by done. done.
Qed.

End Store.

Import Reference Examples.Store.

(** The records the example callers hold round-trip through the reference
    libraries. *)
Lemma holding_round_trips T :
  T = tokens_without_lifetime ∨ T = tokens_with_text_lifetime
  ∨ T = tokens_without_access →
  round_trips (entropy (holding T)) (clock (holding T))
    (JDict (<["stored_at" := JStr (isoformat (clock (holding T)))]> T)).
Proof.
  intros [-> | [-> | ->]]; repeat split; vm_compute; reflexivity.
Qed.

(** "user456" has a record; storing, reading, deleting and checking for
    "user123" does not change what "user456" reads. *)
Lemma users_do_not_interfere_witness :
  let w := (store_tokens "user456" 1%positive start).2 in
  (get_tokens "user456" (store_tokens "user123" 1%positive w).2).1
  = (get_tokens "user456" w).1
  ∧ (is_token_expired "user456" (delete_tokens "user123" w).2).1
    = (is_token_expired "user456" w).1.
Proof.
  intros w.
  pose proof (users_do_not_interfere "user123" "user456" 1%positive w
                ltac:(discriminate)) as Hfree.
  cbv zeta in Hfree.
  destruct Hfree as ((Hstore & _) & _ & (_ & Hdelete & _) & _).
  split; [exact Hstore | exact Hdelete].
Defined.

Lemma stored_record_is_a_copy_witness :
  let w1 := (store_tokens "user123" 1%positive start).2 in
  let w2 := later noon [] (setitem 1%positive "access_token" (JStr "changed") w1).2 in
  heap w2 !! 1%positive
  = Some (<["access_token" := JStr "changed"]>
            (<["stored_at" := JStr (isoformat (clock start))]> user_tokens))
  ∧ get_tokens "user123" w2
    = (Return (JDict (<["stored_at" := JStr (isoformat (clock start))]> user_tokens)),
       w2).
Proof.
  apply (stored_record_is_a_copy "user123" 1%positive user_tokens "access_token"
           (JStr "changed") start noon []).
  - vm_compute; reflexivity.
  - exact example_round_trips.
Defined.

(** Stored at noon without a lifetime: expired at noon. *)
Lemma no_lifetime_means_expired_witness :
  let w1 := later noon []
              (store_tokens "user123" 1%positive (holding tokens_without_lifetime)).2 in
  is_token_expired "user123" w1 = (Return true, w1).
Proof.
  intros w1.
  apply (no_lifetime_means_expired "user123" 1%positive tokens_without_lifetime
           (holding tokens_without_lifetime) noon []).
  - vm_compute; reflexivity.
  - vm_compute; reflexivity.
  - apply holding_round_trips. by left.
  - vm_compute; reflexivity.
  - vm_compute; split; [discriminate|reflexivity].
  - vm_compute; discriminate.
Defined.


Lemma code_verifiers_by_state_witness :
  let w1 := (store_code_verifier "state_a" "first_verifier" start).2 in
  let w2 := (store_code_verifier "state_a" "second_verifier" w1).2 in
  (get_code_verifier "state_b" w2).1 = (get_code_verifier "state_b" start).1
  ∧ (get_code_verifier "state_a" (get_code_verifier "state_b" w2).2).1
    = Return (Some "second_verifier").
Proof.
  intros w1 w2.
  pose proof (code_verifiers_by_state "state_a" "state_b" "first_verifier"
                "second_verifier" start ltac:(discriminate)) as Hstates.
  cbv zeta in Hstates. destruct Hstates as (Hother & Hstate & _).
  split; [exact Hother|]. subst w2 w1. by rewrite Hstate.
Defined.

End Store_spec.

(** ** The helpers that hand out clients: [app/graph_utils.py] *)

Module Graph_utils_spec.
Import Py Token_storage Graph_utils Token_storage_spec Store_spec.
#[local] Open Scope py_scope.

Section Utils.
Context `{Fernet} `{JsonCodec} `{TextCodec} `{DateTimeFormat} `{Repr}.

Abbreviation stamped T t := (<["stored_at" := JStr (isoformat t)]> T).

Lemma truthy_stamped T t : truthy (JDict (stamped T t)) = true.
Proof.
  unfold truthy. rewrite bool_decide_eq_false_2; [done|]. apply insert_non_empty.
Qed.

(** X17.  [ensure_valid_token] after [store_tokens]: for a record stored at
    time [t] with a lifetime of [d] seconds it returns [True] exactly
    while the clock is before [t + d], and it leaves the store as it is;
    for a user with no entry it returns [False]. *)
Theorem ensure_valid_token_after_store user_id tokens T d w t' iv' :
  heap w !! tokens = Some T →
  T !! "expires_in" = Some (JInt d) →
  let t := clock w in
  round_trips (entropy w) t (JDict (stamped T t)) →
  fromisoformat (isoformat t) = Some t →
  valid_datetime t → valid_datetime (t + seconds d) →
  let w1 := later t' iv' (store_tokens user_id tokens w).2 in
  ensure_valid_token user_id w1 = (Return (t' <? t + seconds d), w1)
  ∧ (∀ w' user, _tokens (storage w') !! user = None →
       ensure_valid_token user w' = (Return false, w')).
Proof.
  intros HT Hd t Hrt Hiso Ht Htd w1. split.
  - assert (Hget : get_tokens user_id w1 = (Return (JDict (stamped T t)), w1))
      by (by apply get_tokens_after_store).
    unfold ensure_valid_token, bind. rewrite Hget, truthy_stamped. simpl.
    rewrite (is_token_expired_on_record _ (stamped T t) t d); try done.
    + simpl. unfold ret.
      destruct (Z.leb_spec (t + seconds d) t'), (Z.ltb_spec t' (t + seconds d));
        (done || lia).
    + by rewrite lookup_insert_eq.
    + by rewrite lookup_insert_ne.
  - intros w' user Hno. unfold ensure_valid_token, bind.
    rewrite get_tokens_absent by (by rewrite Hno). done.
Qed.

(** X18.  An entry that fails to decrypt, to decode or to parse counts as
    no record everywhere: [is_token_expired] returns [True],
    [ensure_valid_token] returns [False] and [get_graph_client] returns
    [None], none of them raises, and each of them removes the entry. *)
Theorem corrupted_entry_counts_as_no_record user_id c w :
  _tokens (storage w) !! user_id = Some c →
  truthy_bytes (Some c) = true →
  unseal c = None →
  let w1 := with_tokens (delete user_id) w in
  is_token_expired user_id w = (Return true, w1)
  ∧ ensure_valid_token user_id w = (Return false, w1)
  ∧ get_graph_client user_id w = (Return None, w1)
  ∧ _tokens (storage w1) !! user_id = None.
Proof.
  intros Hc Hne Hbad w1.
  assert (Hget : get_tokens user_id w = (Return JNull, w1)).
  { rewrite (get_tokens_stored _ c) by done. by rewrite Hbad. }
  unfold is_token_expired, ensure_valid_token, get_graph_client, bind.
  rewrite Hget. simpl. repeat split. by rewrite lookup_delete_eq.
Qed.

(** X19.  [get_graph_client] after [store_tokens]: when the stored record
    holds a non-empty string under "access_token", the function returns a
    client for that token at any later time, whether or not the token has
    expired by then (the expiry is not consulted), and leaves the store as
    it is.  Every request that client issues carries the header
    "Authorization: Bearer <token>". *)
Theorem get_graph_client_after_store user_id tokens T token w t' iv' :
  heap w !! tokens = Some T →
  T !! "access_token" = Some (JStr token) →
  token ≠ "" →
  round_trips (entropy w) (clock w) (JDict (stamped T (clock w))) →
  let w1 := later t' iv' (store_tokens user_id tokens w).2 in
  let client := Graph_client.__init__ token in
  get_graph_client user_id w1 = (Return (Some client), w1)
  ∧ ∀ method endpoint data params service r,
      r ∈ Graph_client.sent
            (Graph_client._make_request client method endpoint data params 0
               service).2 →
      r ∈ Graph_client.sent service
      ∨ Graph_client.req_headers r !! "Authorization" = Some ("Bearer " +:+ token).
Proof.
  intros HT Htoken Hne Hrt w1 client. subst client.
  split.
  - assert (Hget : get_tokens user_id w1 = (Return (JDict (stamped T (clock w))), w1))
      by (by apply get_tokens_after_store).
    unfold get_graph_client, bind. rewrite Hget, truthy_stamped. simpl.
    rewrite lookup_insert_ne, Htoken by done. simpl.
    by destruct token.
  - intros method endpoint data params service r Hr.
    destruct (Executor_spec.call_attempts_and_sleeps (Graph_client.__init__ token)
                method endpoint data params 0 service) as (n & _ & Hw);
      [unfold Graph_client.MAX_RETRIES; lia|].
    rewrite Hw in Hr. simpl in Hr.
    apply elem_of_app in Hr as [Hr|Hr]; [by left|right].
    apply elem_of_replicate in Hr as [-> _]. done.
Qed.

(** X20.  Without a usable access token there is no client:
    [get_graph_client] returns [None] when the stored record has no
    "access_token" or holds [None], an empty string or another false
    value there, and when the user has no entry at all. *)
Theorem get_graph_client_needs_an_access_token user_id tokens T w t' iv' :
  heap w !! tokens = Some T →
  truthy (default JNull (T !! "access_token")) = false →
  round_trips (entropy w) (clock w) (JDict (stamped T (clock w))) →
  let w1 := later t' iv' (store_tokens user_id tokens w).2 in
  get_graph_client user_id w1 = (Return None, w1)
  ∧ (∀ w' user, _tokens (storage w') !! user = None →
       get_graph_client user w' = (Return None, w')).
Proof.
  intros HT Htoken Hrt w1. split.
  - assert (Hget : get_tokens user_id w1 = (Return (JDict (stamped T (clock w))), w1))
      by (by apply get_tokens_after_store).
    unfold get_graph_client, bind. rewrite Hget, truthy_stamped. simpl.
    rewrite lookup_insert_ne by done. unfold ret. by rewrite Htoken.
  - intros w' user Hno. unfold get_graph_client, bind.
    rewrite get_tokens_absent by (by rewrite Hno). done.
Qed.

End Utils.

Import Reference Examples.Store.

(** Stored at noon for an hour: valid half an hour later, not valid two
    hours later. *)
Lemma ensure_valid_token_after_store_witness :
  let w1 t' := later t' [] (store_tokens "user123" 1%positive start).2 in
  ensure_valid_token "user123" (w1 (noon + seconds 1800))
  = (Return true, w1 (noon + seconds 1800))
  ∧ ensure_valid_token "user123" (w1 (noon + seconds 7200))
    = (Return false, w1 (noon + seconds 7200))
  ∧ ensure_valid_token "nonexistent_user" start = (Return false, start).
Proof.
  intros w1.
  assert (Hrun : ∀ t', ensure_valid_token "user123" (w1 t')
                       = (Return (t' <? clock start + seconds 3600), w1 t')
                       ∧ ensure_valid_token "nonexistent_user" start
                         = (Return false, start)).
  { intros t'.
    destruct (ensure_valid_token_after_store "user123" 1%positive user_tokens 3600
                start t' []) as (Hstored & Habsent).
    - vm_compute; reflexivity.
    - vm_compute; reflexivity.
    - exact example_round_trips.
    - vm_compute; reflexivity.
    - vm_compute; split; [discriminate|reflexivity].
    - vm_compute; split; [discriminate|reflexivity].
    - split; [exact Hstored|]. apply Habsent. vm_compute; reflexivity. }
  split; [|split].
  - rewrite (proj1 (Hrun _)). do 2 f_equal.
  - rewrite (proj1 (Hrun _)). do 2 f_equal.
  - apply (proj2 (Hrun noon)).
Defined.

Lemma corrupted_entry_counts_as_no_record_witness :
  let w1 := with_tokens (delete "user123") garbled in
  is_token_expired "user123" garbled = (Return true, w1)
  ∧ ensure_valid_token "user123" garbled = (Return false, w1)
  ∧ get_graph_client "user123" garbled = (Return None, w1)
  ∧ _tokens (storage w1) !! "user123" = None.
Proof.
  apply (corrupted_entry_counts_as_no_record "user123" (encode "not a token at all")
           garbled); vm_compute; reflexivity.
Defined.

(** Two hours after an access token with a lifetime of one hour was
    stored, the client is still handed out. *)
Lemma get_graph_client_after_store_witness :
  let w1 := later (noon + seconds 7200) [] (store_tokens "user123" 1%positive start).2 in
  get_graph_client "user123" w1
  = (Return (Some (Graph_client.__init__ "access_token_xyz")), w1).
Proof.
  intros w1.
  apply (get_graph_client_after_store "user123" 1%positive user_tokens
           "access_token_xyz" start (noon + seconds 7200) []).
  - vm_compute; reflexivity.
  - vm_compute; reflexivity.
  - discriminate.
  - exact example_round_trips.
Defined.

Lemma get_graph_client_needs_an_access_token_witness :
  let w1 := later noon []
              (store_tokens "user123" 1%positive (holding tokens_without_access)).2 in
  get_graph_client "user123" w1 = (Return None, w1)
  ∧ get_graph_client "nonexistent_user" start = (Return None, start).
Proof.
  intros w1.
  destruct (get_graph_client_needs_an_access_token "user123" 1%positive
              tokens_without_access (holding tokens_without_access) noon [])
    as (Hstored & Habsent).
  - vm_compute; reflexivity.
  - vm_compute; reflexivity.
  - apply holding_round_trips. right. by right.
  - split; [exact Hstored|]. apply Habsent. vm_compute; reflexivity.
Defined.

End Graph_utils_spec.

(** ** PKCE codes: [app/pkce.py] *)

Module Pkce_spec.
Import Py Pkce.
#[local] Open Scope py_scope.

(** A byte of the URL-safe alphabet. *)
Abbreviation urlsafe_byte := (λ b : Byte.byte, urlsafe_char (Ascii.ascii_of_byte b) = true).

Lemma sextet_urlsafe n : urlsafe_byte (sextet n).
Proof.
  unfold sextet.
  assert (Hall : forallb (λ b, urlsafe_char (Ascii.ascii_of_byte b))
                   (String.list_byte_of_string urlsafe_alphabet) = true)
    by (vm_compute; reflexivity).
  rewrite forallb_forall in Hall. apply Hall. apply nth_In.
  assert (length (String.list_byte_of_string urlsafe_alphabet) = 64%nat) as ->
    by (vm_compute; reflexivity).
  pose proof (N.mod_upper_bound n 64). lia.
Qed.

(** Input of [3 * k] bytes: [4 * k] characters of the alphabet, no
    padding. *)
Lemma urlsafe_b64encode_whole_groups k : ∀ data,
  length data = (3 * k)%nat →
  length (urlsafe_b64encode data) = (4 * k)%nat
  ∧ Forall urlsafe_byte (urlsafe_b64encode data).
Proof.
  induction k as [|k IH]; intros data Hlen.
  - destruct data; [done|simpl in Hlen; lia].
  - destruct data as [|a [|b [|c rest]]]; simpl in Hlen; try lia.
    destruct (IH rest ltac:(lia)) as (Hl & Hall).
    cbn [urlsafe_b64encode]. cbv zeta. split.
    + simpl. lia.
    + repeat (apply Forall_cons; split; [apply sextet_urlsafe|]). done.
Qed.

(** Input of [3 * k + 2] bytes: [4 * k + 3] characters of the alphabet and
    one padding character. *)
Lemma urlsafe_b64encode_two_left k : ∀ data,
  length data = (3 * k + 2)%nat →
  ∃ body, urlsafe_b64encode data = body ++ [pad]
          ∧ length body = (4 * k + 3)%nat
          ∧ Forall urlsafe_byte body.
Proof.
  induction k as [|k IH]; intros data Hlen.
  - destruct data as [|a [|b [|c rest]]]; simpl in Hlen; try lia.
    eexists [_; _; _]. cbn [urlsafe_b64encode]. cbv zeta.
    split; [reflexivity|]. split; [done|].
    repeat (apply Forall_cons; split; [apply sextet_urlsafe|]). done.
  - destruct data as [|a [|b [|c rest]]]; simpl in Hlen; try lia.
    destruct (IH rest ltac:(lia)) as (body & Hbody & Hl & Hall).
    eexists (_ :: _ :: _ :: _ :: body). cbn [urlsafe_b64encode]. cbv zeta.
    rewrite Hbody. split; [reflexivity|]. split; [simpl; lia|].
    repeat (apply Forall_cons; split; [apply sextet_urlsafe|]). done.
Qed.

Lemma string_of_list_byte_app l1 l2 :
  String.string_of_list_byte (l1 ++ l2)
  = (String.string_of_list_byte l1 +:+ String.string_of_list_byte l2)%string.
Proof.
  unfold String.string_of_list_byte. induction l1 as [|a l1 IH]; simpl; [done|].
  by rewrite IH.
Qed.

Lemma length_string_of_list_byte l :
  String.length (String.string_of_list_byte l) = length l.
Proof.
  unfold String.string_of_list_byte. induction l as [|a l IH]; simpl; [done|].
  by rewrite IH.
Qed.

Lemma all_chars_string_of_list_byte l :
  Forall urlsafe_byte l → all_chars urlsafe_char (String.string_of_list_byte l) = true.
Proof.
  unfold String.string_of_list_byte. induction 1 as [|a l Ha Hl IH]; simpl; [done|].
  by rewrite Ha, IH.
Qed.

(** [rstrip] removes trailing padding and nothing else from a text of the
    alphabet. *)
Lemma rstrip_pads n :
  rstrip equals_sign (String.string_of_list_byte (replicate n pad)) = "".
Proof.
  induction n as [|n IH]; [done|].
  change (String.string_of_list_byte (replicate (S n) pad))
    with (String equals_sign (String.string_of_list_byte (replicate n pad))).
  simpl. by rewrite IH.
Qed.

Lemma rstrip_padding s n :
  all_chars urlsafe_char s = true →
  rstrip equals_sign
    (s +:+ String.string_of_list_byte (replicate n pad))%string = s.
Proof.
  intros Hs. induction s as [|a s IH].
  - apply rstrip_pads.
  - simpl. simpl in Hs. apply andb_prop in Hs as [Ha Hs]. rewrite IH by done.
    destruct s; [|done].
    destruct (Ascii.eqb_spec a equals_sign) as [->|]; [|done].
    by vm_compute in Ha.
Qed.

Lemma rstrip_urlsafe s :
  all_chars urlsafe_char s = true → rstrip equals_sign s = s.
Proof.
  intros Hs. induction s as [|a s IH]; simpl; [done|].
  simpl in Hs. apply andb_prop in Hs as [Ha Hs]. rewrite IH by done.
  destruct s; [|done].
  destruct (Ascii.eqb_spec a equals_sign) as [->|]; [|done].
  by vm_compute in Ha.
Qed.

Lemma length_substring_0 n : ∀ s,
  String.length (String.substring 0 n s) = Nat.min n (String.length s).
Proof.
  induction n as [|n IH]; intros [|a s]; simpl; try done. by rewrite IH.
Qed.

Lemma all_chars_substring_0 p n : ∀ s,
  all_chars p s = true → all_chars p (String.substring 0 n s) = true.
Proof.
  induction n as [|n IH]; intros [|a s]; simpl; try done.
  intros [Ha Hs]%andb_prop. by rewrite Ha, IH.
Qed.

Lemma prefix_substring_0 n : ∀ s,
  String.prefix (String.substring 0 n s) s = true.
Proof.
  induction n as [|n IH]; intros [|a s]; simpl; try done.
  destruct (Ascii.ascii_dec a a); [apply IH|done].
Qed.

Lemma substring_0_all n : ∀ s,
  (String.length s ≤ n)%nat → String.substring 0 n s = s.
Proof.
  induction n as [|n IH]; intros [|a s] Hlen; simpl in *; try done; [lia|].
  rewrite IH; [done|lia].
Qed.

Lemma length_next_bytes n w : length (next_bytes n w) = n.
Proof. unfold next_bytes. by rewrite length_map, length_seq. Qed.

Section Pkce.
Context `{TextCodec} `{Hashlib}.

(** X21.  [generate_code_verifier]: outside 43..128 the call raises
    [ValueError] before anything is drawn from the random source.  Inside,
    it draws 96 bytes whatever the length asked for, and returns the first
    [length] characters of their URL-safe base64 text: 128 characters of
    the alphabet and no padding, so that [rstrip] removes nothing; the
    verifier has exactly [length] characters, all letters, digits, "-" or
    "_". *)
Theorem generate_code_verifier_shape length w :
  let text := String.string_of_list_byte (urlsafe_b64encode (next_bytes 96 w)) in
  reads_as_ascii (urlsafe_b64encode (next_bytes 96 w)) →
  (¬ 43 ≤ length ≤ 128 →
     generate_code_verifier length w
     = (Raise (ValueError "Code verifier length must be between 43 and 128"), w))
  ∧ (43 ≤ length ≤ 128 →
     ∃ verifier,
       generate_code_verifier length w
       = (Return verifier, {| random := random w; drawn := drawn w + 96 |})
       ∧ verifier = String.substring 0 (Z.to_nat length) text
       ∧ String.length text = 128%nat
       ∧ Z.of_nat (String.length verifier) = length
       ∧ all_chars urlsafe_char verifier = true).
Proof.
  intros text Hread. unfold generate_code_verifier. split.
  - intros Hout. replace ((43 <=? length) && (length <=? 128)) with false by lia. done.
  - intros Hin. replace ((43 <=? length) && (length <=? 128)) with true by lia.
    cbn [negb].
    destruct (urlsafe_b64encode_whole_groups 32 (next_bytes 96 w))
      as (Hl & Hall); [by rewrite length_next_bytes|].
    assert (Htext : all_chars urlsafe_char text = true)
      by (by apply all_chars_string_of_list_byte).
    assert (Hlen : String.length text = 128%nat)
      by (subst text; by rewrite length_string_of_list_byte).
    exists (String.substring 0 (Z.to_nat length) text).
    split; [|split; [done|split; [done|split]]].
    + unfold bind, token_bytes. cbv beta iota. rewrite Hread.
      unfold lift, ret. cbv beta iota. fold text. by rewrite rstrip_urlsafe.
    + rewrite length_substring_0, Hlen. lia.
    + by apply all_chars_substring_0.
Qed.

(** The run of [generate_code_challenge] on a 32-byte digest: the 44
    characters of the encoding are 43 of the alphabet and one "=", which
    [rstrip] removes. *)
Lemma generate_code_challenge_run code_verifier w :
  let digest := sha256 (encode code_verifier) in
  length digest = 32%nat →
  reads_as_ascii (urlsafe_b64encode digest) →
  ∃ body,
    urlsafe_b64encode digest = body ++ [pad]
    ∧ length body = 43%nat
    ∧ Forall urlsafe_byte body
    ∧ generate_code_challenge code_verifier w
      = (Return (String.string_of_list_byte body), w).
Proof.
  intros digest Hlen Hread.
  destruct (urlsafe_b64encode_two_left 10 digest Hlen) as (body & Hbody & Hl & Hall).
  exists body. split; [done|]. split; [done|]. split; [done|].
  unfold generate_code_challenge. fold digest. unfold bind. rewrite Hread.
  unfold lift, ret. rewrite Hbody. do 2 f_equal.
  rewrite string_of_list_byte_app.
  apply (rstrip_padding _ 1). by apply all_chars_string_of_list_byte.
Qed.

(** X22.  [generate_code_challenge]: for a digest of 32 bytes, as SHA-256
    gives, the challenge is the URL-safe base64 text of the digest without
    its one padding character: 43 characters, all letters, digits, "-" or
    "_"; nothing is drawn from the random source. *)
Theorem generate_code_challenge_shape code_verifier w :
  let digest := sha256 (encode code_verifier) in
  length digest = 32%nat →
  reads_as_ascii (urlsafe_b64encode digest) →
  ∃ challenge,
    generate_code_challenge code_verifier w = (Return challenge, w)
    ∧ String.string_of_list_byte (urlsafe_b64encode digest)
      = (challenge +:+ String equals_sign "")%string
    ∧ String.length challenge = 43%nat
    ∧ all_chars urlsafe_char challenge = true.
Proof.
  intros digest Hlen Hread.
  destruct (generate_code_challenge_run code_verifier w Hlen Hread)
    as (body & Hbody & Hl & Hall & Hrun).
  exists (String.string_of_list_byte body). split; [done|]. split; [|split].
  - fold digest in Hbody. rewrite Hbody. apply string_of_list_byte_app.
  - by rewrite length_string_of_list_byte.
  - by apply all_chars_string_of_list_byte.
Qed.

(** X23.  [generate_pkce_pair] draws 96 bytes once and returns their whole
    URL-safe base64 text, 128 characters, as the verifier, together with
    the challenge [generate_code_challenge] computes for that very
    verifier, 43 characters. *)
Theorem generate_pkce_pair_shape w :
  let verifier := String.string_of_list_byte (urlsafe_b64encode (next_bytes 96 w)) in
  let digest := sha256 (encode verifier) in
  reads_as_ascii (urlsafe_b64encode (next_bytes 96 w)) →
  length digest = 32%nat →
  reads_as_ascii (urlsafe_b64encode digest) →
  ∃ challenge,
    generate_pkce_pair w
    = (Return (verifier, challenge), {| random := random w; drawn := drawn w + 96 |})
    ∧ (∀ w', generate_code_challenge verifier w' = (Return challenge, w'))
    ∧ String.length verifier = 128%nat
    ∧ String.length challenge = 43%nat.
Proof.
  intros verifier digest Hread Hlen Hread'.
  destruct (urlsafe_b64encode_whole_groups 32 (next_bytes 96 w))
    as (Hl & Hall); [by rewrite length_next_bytes|].
  assert (Hverifier : String.length verifier = 128%nat)
    by (subst verifier; by rewrite length_string_of_list_byte).
  destruct (generate_code_challenge_run verifier w Hlen Hread')
    as (body & Hbody & Hlb & _ & _).
  exists (String.string_of_list_byte body).
  assert (Hchallenge : ∀ w', generate_code_challenge verifier w'
                             = (Return (String.string_of_list_byte body), w')).
  { intros w'.
    destruct (generate_code_challenge_run verifier w' Hlen Hread')
      as (body' & Hbody' & _ & _ & ->).
    rewrite Hbody in Hbody'. by apply app_inj_tail in Hbody' as [-> _]. }
  split; [|split; [done|split; [done|by rewrite length_string_of_list_byte]]].
  unfold generate_pkce_pair, generate_code_verifier.
  change ((43 <=? 128) && (128 <=? 128)) with true. cbn [negb].
  unfold bind, token_bytes. cbv beta iota. rewrite Hread.
  unfold lift, ret. cbv beta iota. fold verifier.
  rewrite rstrip_urlsafe by (by apply all_chars_string_of_list_byte).
  rewrite substring_0_all by (rewrite Hverifier; vm_compute; lia).
  by rewrite Hchallenge.
Qed.

End Pkce.

Import Reference Examples.Codes.

(** The codec reads an encoding as its characters. *)
Lemma reference_reads_base64 data :
  reads_as_ascii (urlsafe_b64encode data) ↔
  forallb ascii_byte (urlsafe_b64encode data) = true.
Proof.
  unfold reads_as_ascii. simpl. unfold ascii_decode.
  destruct (forallb ascii_byte _); split; done.
Qed.

(** A verifier of 43 characters from the counting source, and the refusal
    of 42. *)
Lemma generate_code_verifier_shape_witness :
  generate_code_verifier 42 unused
  = (Raise (ValueError "Code verifier length must be between 43 and 128"), unused)
  ∧ ∃ verifier,
      generate_code_verifier 43 unused
      = (Return verifier, {| random := random unused; drawn := drawn unused + 96 |})
      ∧ verifier
        = String.substring 0 (Z.to_nat 43)
            (String.string_of_list_byte (urlsafe_b64encode (next_bytes 96 unused)))
      ∧ String.length
          (String.string_of_list_byte (urlsafe_b64encode (next_bytes 96 unused)))
        = 128%nat
      ∧ Z.of_nat (String.length verifier) = 43
      ∧ all_chars urlsafe_char verifier = true.
Proof.
  assert (Hread : reads_as_ascii (urlsafe_b64encode (next_bytes 96 unused)))
    by (apply reference_reads_base64; vm_compute; reflexivity).
  split.
  - apply (proj1 (generate_code_verifier_shape 42 unused Hread)). lia.
  - apply (proj2 (generate_code_verifier_shape 43 unused Hread)). lia.
Defined.

(** The challenge of the verifier of the repository's tests. *)
Lemma generate_code_challenge_shape_witness :
  ∃ challenge,
    generate_code_challenge "test_verifier_1234567890" unused
    = (Return challenge, unused)
    ∧ String.string_of_list_byte
        (urlsafe_b64encode (sha256 (encode "test_verifier_1234567890")))
      = (challenge +:+ String equals_sign "")%string
    ∧ String.length challenge = 43%nat
    ∧ all_chars urlsafe_char challenge = true.
Proof.
  apply (generate_code_challenge_shape "test_verifier_1234567890" unused).
  - vm_compute; reflexivity.
  - apply reference_reads_base64. vm_compute; reflexivity.
Defined.

Lemma generate_pkce_pair_shape_witness :
  ∃ challenge,
    generate_pkce_pair unused
    = (Return (String.string_of_list_byte (urlsafe_b64encode (next_bytes 96 unused)),
               challenge),
       {| random := random unused; drawn := drawn unused + 96 |})
    ∧ (∀ w', generate_code_challenge
               (String.string_of_list_byte (urlsafe_b64encode (next_bytes 96 unused))) w'
             = (Return challenge, w'))
    ∧ String.length
        (String.string_of_list_byte (urlsafe_b64encode (next_bytes 96 unused)))
      = 128%nat
    ∧ String.length challenge = 43%nat.
Proof.
  apply (generate_pkce_pair_shape unused).
  - apply reference_reads_base64. vm_compute; reflexivity.
  - vm_compute; reflexivity.
  - apply reference_reads_base64. vm_compute; reflexivity.
Defined.

(** The values the reference libraries give, as Python's [hashlib] and
    [base64] do. *)
Example challenge_of_the_test_verifier :
  generate_code_challenge "test_verifier_1234567890" unused
  = (Return "3F8orsN3yIn1toJFgFNVVkyCHgI8bJOuf6nt7J1Rq64", unused).
Proof. vm_compute. reflexivity. Qed.

End Pkce_spec.
